(** * The provider bridge: origin authorization gate and RPC router

    A shallow embedding of [ProviderBridgeService]
    (background/services/provider-bridge, the version that carries the
    signing checks, the claim-referrer side channel and the account-change
    broadcast) and the properties of its message gateway, router and
    consent table.

    The service is asynchronous JavaScript.  Each handler is embedded as a
    computation in a small monad that threads the service state, collects
    the observable effects in program order (messages posted on ports,
    emitted events, popups, calls into the internal provider, resolved
    continuations) and propagates thrown values, so that [try]/[catch] and
    [finally] can be written as the source has them.  The one true
    suspension point, [await blockUntilUserAction], splits the message
    handler in two: [onMessageListener] up to the suspension and
    [onMessageListener_resumed] from there on. *)

From stdpp Require Import gmap strings list fin_maps.
From Stdlib Require Import ZArith Ascii String.

Set Warnings "-register-all".

Local Open Scope Z_scope.
Local Open Scope string_scope.
Local Open Scope list_scope.

(** ** Values crossing the port *)

(** The keys of [EIP1193_ERROR_CODES] the bridge uses. *)
Inductive EIP1193_ERROR_CODES :=
| userRejectedRequest
| unauthorized.

(** JSON-like values: RPC parameters and results are [unknown] in the
    source.  [VError c] stands for the object [new EIP1193Error(c).toJSON()];
    the class lives in the shared package and only the code key matters to
    the bridge. *)
Inductive Value :=
| VUndefined
| VNull
| VBool (b : bool)
| VNum (n : Z)
| VStr (s : string)
| VArr (items : list Value)
| VObj (fields : list (string * Value))
| VError (code : EIP1193_ERROR_CODES).

(** [params[i]]: reading past the end of an array gives [undefined]. *)
Definition index (params : list Value) (i : nat) : Value :=
  default VUndefined (params !! i).

(** [obj.name] on a runtime value; a missing property is [undefined]. *)
Fixpoint lookup_field (name : string) (fields : list (string * Value)) : Value :=
  match fields with
  | [] => VUndefined
  | (k, v) :: rest => if String.eqb k name then v else lookup_field name rest
  end.

Definition property (name : string) (v : Value) : Value :=
  match v with
  | VObj fields => lookup_field name fields
  | _ => VUndefined
  end.

(** The [state] of a permission request: ["request" | "allow" | "deny"]. *)
Inductive PermissionState :=
| request_state
| allow
| deny.

Definition PermissionState_eqb (a b : PermissionState) : bool :=
  match a, b with
  | request_state, request_state | allow, allow | deny, deny => true
  | _, _ => false
  end.

Record PermissionRequest := {
  key : string;
  origin : string;
  faviconUrl : string;
  title : string;
  state : PermissionState;
  accountAddress : string;
}.

(** [id] of an envelope: [string | number]. *)
Inductive MessageId :=
| IdString (s : string)
| IdNumber (n : Z).

Record RPCRequest := {
  method : string;
  params : list Value;
}.

Record PortRequestEvent := {
  request_id : MessageId;
  request : RPCRequest;
}.

Record PortResponseEvent := {
  response_id : MessageId;
  result : Value;
}.

(** The fixed id of wallet-originated messages. *)
Definition tallyHo : MessageId := IdString "tallyHo".

(** ** Ports, tabs, windows *)

Record Tab := {
  tab_id : option Z;
  favIconUrl : option string;
  tab_title : option string;
}.

(** A [Runtime.Port]; [port_ref] stands for the identity of the object. *)
Record Port := {
  port_ref : nat;
  port_name : string;
  sender_url : option string;
  sender_tab : option Tab;
}.

Record Window := {
  window_id : option Z;
}.

Inductive AllowedQueryParamPage :=
| dappPermission
| signData
| personalSignData
| signTransaction.

(** ** Thrown values and settled promises *)

Inductive Thrown :=
| UnauthorizedSigner
| Raised (reason : Value).

Inductive Completion (A : Type) :=
| Return (a : A)
| Throw (e : Thrown).

Arguments Return {A} a.
Arguments Throw {A} e.

(** What a pending continuation is called with. *)
Inductive Resolution :=
| ResolvedByGrant (permission : PermissionRequest)
| ResolvedByDeny (message : string).

(** ** Observable effects, in program order *)

Inductive Effect :=
| PostMessage (port : Port) (response : PortResponseEvent)
| EmitRequestPermission (permissionRequest : PermissionRequest)
| EmitSetClaimReferrer (referrer : string)
| ShowExtensionPopup (page : AllowedQueryParamPage)
| WindowsRemove (id : Z)
| RouteSafeRPCRequest (method : string) (params : list Value)
| Resolve (resolver : nat) (value : Resolution)
| LoggerWarn (message : string)
| LoggerLog (message : string) (error : Thrown).

(** ** The service state *)

(** [db]: the permission store; [pendingPermissionsRequests]: the private
    table of continuations, one JavaScript object keyed by origin (a
    continuation is named by the number of the promise it completes);
    [selectedAccount] and [defaultWallet]: what the preference service
    answers; [nextPromise]: the next fresh promise number. *)
Record Service := {
  db : gmap (string * string) PermissionRequest;
  pendingPermissionsRequests : gmap string nat;
  openPorts : list Port;
  selectedAccount : string;
  defaultWallet : bool;
  nextPromise : nat;
}.

Definition set_db (f : gmap (string * string) PermissionRequest →
                       gmap (string * string) PermissionRequest)
    (s : Service) : Service :=
  {| db := f (db s);
     pendingPermissionsRequests := pendingPermissionsRequests s;
     openPorts := openPorts s;
     selectedAccount := selectedAccount s;
     defaultWallet := defaultWallet s;
     nextPromise := nextPromise s |}.

Definition set_pending (f : gmap string nat → gmap string nat)
    (s : Service) : Service :=
  {| db := db s;
     pendingPermissionsRequests := f (pendingPermissionsRequests s);
     openPorts := openPorts s;
     selectedAccount := selectedAccount s;
     defaultWallet := defaultWallet s;
     nextPromise := nextPromise s |}.

Definition set_openPorts (f : list Port → list Port) (s : Service) : Service :=
  {| db := db s;
     pendingPermissionsRequests := pendingPermissionsRequests s;
     openPorts := f (openPorts s);
     selectedAccount := selectedAccount s;
     defaultWallet := defaultWallet s;
     nextPromise := nextPromise s |}.

Definition bump_nextPromise (s : Service) : Service :=
  {| db := db s;
     pendingPermissionsRequests := pendingPermissionsRequests s;
     openPorts := openPorts s;
     selectedAccount := selectedAccount s;
     defaultWallet := defaultWallet s;
     nextPromise := S (nextPromise s) |}.

(** ** The monad of handlers *)

Definition M (A : Type) : Type :=
  Service → Completion A * Service * list Effect.

Definition ret {A} (a : A) : M A := fun s => (Return a, s, []).

Definition throw {A} (e : Thrown) : M A := fun s => (Throw e, s, []).

Definition bind {A B} (m : M A) (k : A → M B) : M B := fun s =>
  match m s with
  | (Return a, s1, t1) =>
      match k a s1 with
      | (r, s2, t2) => (r, s2, t1 ++ t2)
      end
  | (Throw e, s1, t1) => (Throw e, s1, t1)
  end.

Definition try_catch {A} (body : M A) (handler : Thrown → M A) : M A := fun s =>
  match body s with
  | (Return a, s1, t1) => (Return a, s1, t1)
  | (Throw e, s1, t1) =>
      match handler e s1 with
      | (r, s2, t2) => (r, s2, t1 ++ t2)
      end
  end.

Definition perform (e : Effect) : M unit := fun s => (Return tt, s, [e]).

Definition gets {A} (f : Service → A) : M A := fun s => (Return (f s), s, []).

Definition modify (f : Service → Service) : M unit := fun s => (Return tt, f s, []).

(** [await p] on a promise that settles as [p]. *)
Definition await {A} (p : Completion A) : M A :=
  match p with
  | Return a => ret a
  | Throw e => throw e
  end.

Notation "'let*' x ':=' m 'in' k" := (bind m (fun x => k))
  (at level 10, x name, m at level 100, k at level 200).
Notation "m ';;;' k" := (bind m (fun _ => k))
  (at level 100, k at level 200, right associativity).

Definition completion {A} (r : Completion A * Service * list Effect) : Completion A :=
  r.1.1.
Definition final {A} (r : Completion A * Service * list Effect) : Service :=
  r.1.2.
Definition trace {A} (r : Completion A * Service * list Effect) : list Effect :=
  r.2.

(** ** The permission store *)

(** Modelled from the spec: the store (./db, [ProviderBridgeServiceDatabase])
    is not among the sources.  It is the durable map from (origin, account)
    to a grant: [put] upserts on the key derived from the pair, [get] looks
    the pair up, [delete] removes the entry and does nothing when absent. *)
Definition db_setPermission (permission : PermissionRequest)
    (store : gmap (string * string) PermissionRequest) :
    gmap (string * string) PermissionRequest :=
  <[(origin permission, accountAddress permission) := permission]> store.

Definition db_deletePermission (origin accountAddress : string)
    (store : gmap (string * string) PermissionRequest) :
    gmap (string * string) PermissionRequest :=
  delete (origin, accountAddress) store.

Definition db_checkPermission (origin accountAddress : string)
    (store : gmap (string * string) PermissionRequest) : option PermissionRequest :=
  store !! (origin, accountAddress).

(** ** The authorization policy *)

Definition lower_ascii (c : ascii) : ascii :=
  let n := nat_of_ascii c in
  if (65 <=? n)%nat && (n <=? 90)%nat then ascii_of_nat (n + 32) else c.

Fixpoint lower (s : string) : string :=
  match s with
  | EmptyString => EmptyString
  | String c rest => String (lower_ascii c) (lower rest)
  end.

(** Modelled from the spec: ./authorization is not among the sources.  The
    address carried by the call must equal the grant's [accountAddress],
    compared as hex without regard to case; the check returns normally or
    fails with [UnauthorizedSigner], and an absent address is rejected. *)
Definition sameEVMAddress (address1 address2 : string) : bool :=
  String.eqb (lower address1) (lower address2).

Definition checkPermissionSign (walletAddress : Value)
    (enablingPermission : PermissionRequest) : Completion unit :=
  match walletAddress with
  | VStr address =>
      if sameEVMAddress address (accountAddress enablingPermission)
      then Return tt else Throw UnauthorizedSigner
  | _ => Throw UnauthorizedSigner
  end.

Definition checkPermissionSignTypedData (walletAddress : Value)
    (enablingPermission : PermissionRequest) : Completion unit :=
  checkPermissionSign walletAddress enablingPermission.

Definition checkPermissionSignTransaction (transactionRequest : Value)
    (enablingPermission : PermissionRequest) : Completion unit :=
  checkPermissionSign (property "from" transactionRequest) enablingPermission.

(** A [case] group of the router's [switch]. *)
Definition one_of (method : string) (labels : list string) : bool :=
  existsb (String.eqb method) labels.

(** Truthiness of a string: only the empty string is falsy. *)
Definition truthy (s : string) : bool := negb (String.eqb s "").

(** ** Reading a trace *)

Definition posted (t : list Effect) : list (Port * PortResponseEvent) :=
  omap (fun e => match e with PostMessage p r => Some (p, r) | _ => None end) t.

Definition dispatched (t : list Effect) : list (string * list Value) :=
  omap (fun e => match e with RouteSafeRPCRequest m p => Some (m, p) | _ => None end) t.

Definition popups (t : list Effect) : list AllowedQueryParamPage :=
  omap (fun e => match e with ShowExtensionPopup page => Some page | _ => None end) t.

Definition resolved (t : list Effect) : list nat :=
  omap (fun e => match e with Resolve r _ => Some r | _ => None end) t.

Definition referrers (t : list Effect) : list string :=
  omap (fun e => match e with EmitSetClaimReferrer r => Some r | _ => None end) t.

(** ** The [case] groups of the router's [switch] *)

Definition account_methods : list string :=
  ["eth_requestAccounts"; "eth_accounts"].

Definition typed_data_methods : list string :=
  ["eth_signTypedData"; "eth_signTypedData_v1";
   "eth_signTypedData_v3"; "eth_signTypedData_v4"].

Definition sign_methods : list string := ["eth_sign"; "personal_sign"].

Definition transaction_methods : list string :=
  ["eth_signTransaction"; "eth_sendTransaction"].

Definition signing_family : list string :=
  typed_data_methods ++ sign_methods ++ transaction_methods.

(** The address the router hands to the check of the method's family:
    [params[0]] for typed data, [params[1]] for [eth_sign] and
    [personal_sign], [params[0].from] for transactions. *)
Definition signer_parameter (method : string) (params : list Value) : Value :=
  if one_of method typed_data_methods then index params 0
  else if one_of method sign_methods then index params 1
  else property "from" (index params 0).

(** The popup the router opens for a method of the signing family. *)
Definition popup_page (method : string) : AllowedQueryParamPage :=
  if one_of method typed_data_methods then signData
  else if one_of method sign_methods then personalSignData
  else signTransaction.

(** [browser.windows.remove(popup.id)], when the window has an id. *)
Definition close_popup (popup : Window) : list Effect :=
  match window_id popup with
  | Some id => [WindowsRemove id]
  | None => []
  end.

(** ** A concrete setting for examples *)

Definition example_isTallyConfigPayload (r : RPCRequest) : bool :=
  String.eqb (method r) "tally_getConfig".

Definition example_WEBSITE_ORIGIN : string := "https://tally.cash".

(** The example urls are bare origins. *)
Definition example_URL_origin (url : string) : string := url.

Definition example_browser_tabs_get (id : Z) : Tab :=
  {| tab_id := Some id; favIconUrl := None; tab_title := None |}.

Definition example_showExtensionPopup (page : AllowedQueryParamPage) :
    Completion Window :=
  Return {| window_id := Some 7 |}.

(** An internal provider that fails every dispatch. *)
Definition example_routeSafeRPCRequest (method : string) (params : list Value) :
    Completion Value :=
  Throw (Raised (VStr "internal provider failure")).

(** An internal provider that signs whatever it is handed. *)
Definition example_signing_provider (method : string) (params : list Value) :
    Completion Value :=
  Return (VStr "0xsignature").

(** A popup opener that fails. *)
Definition example_failing_popup (page : AllowedQueryParamPage) :
    Completion Window :=
  Throw (Raised (VStr "no window")).

Definition example_port (ref : nat) (url : string) : Port :=
  {| port_ref := ref;
     port_name := "tally-external";
     sender_url := Some url;
     sender_tab := None |}.

Definition example_decision (origin account : string) (decision : PermissionState) :
    PermissionRequest :=
  {| key := origin +:+ "_" +:+ account;
     origin := origin;
     faviconUrl := "";
     title := "";
     state := decision;
     accountAddress := account |}.

Definition example_grant (origin account : string) : PermissionRequest :=
  example_decision origin account allow.

Definition example_service (grants : list PermissionRequest) (ports : list Port)
    (selected : string) : Service :=
  {| db := fold_right db_setPermission ∅ grants;
     pendingPermissionsRequests := ∅;
     openPorts := ports;
     selectedAccount := selected;
     defaultWallet := true;
     nextPromise := 0 |}.

Definition example_event (id : Z) (method : string) (params : list Value) :
    PortRequestEvent :=
  {| request_id := IdNumber id;
     request := {| method := method; params := params |} |}.

(** ** The service *)

Section ProviderBridgeService.

Set Default Proof Using "Type".

(** Collaborators of the shared package, the platform and the other
    services, none of which the bridge defines: the name of the content
    script's port, the guard recognising the internal wallet-config query,
    the website allowed to set a claim referrer, [new URL(url).origin],
    [browser.tabs.get], the popup opener and the internal provider's safe
    dispatch.  The last two return promises that may reject. *)
Variable EXTERNAL_PORT_NAME : string.
Variable isTallyConfigPayload : RPCRequest → bool.
Variable WEBSITE_ORIGIN : string.
Variable URL_origin : string → string.
Variable browser_tabs_get : Z → Tab.
Variable showExtensionPopup : AllowedQueryParamPage → Completion Window.
Variable routeSafeRPCRequest : string → list Value → Completion Value.

Definition postMessage (port : Port) (response : PortResponseEvent) : M unit :=
  perform (PostMessage port response).

(** The [onConnect] listener of the constructor: a port of the content
    script with a sender url joins [openPorts]. *)
Definition onConnect (port : Port) : M unit :=
  if String.eqb (port_name port) EXTERNAL_PORT_NAME
     && from_option truthy false (sender_url port)
  then modify (set_openPorts (fun ports => ports ++ [port]))
  else ret tt.

(** The [onDisconnect] listener of a port: it leaves [openPorts]. *)
Definition onDisconnect (port : Port) : M unit :=
  modify (set_openPorts
            (filter (fun openPort => port_ref openPort ≠ port_ref port))).

(** Calling [showExtensionPopup(page)] opens the window at once and hands
    back the promise of it. *)
Definition call_showExtensionPopup (page : AllowedQueryParamPage) :
    M (Completion Window) :=
  perform (ShowExtensionPopup page) ;;;
  ret (showExtensionPopup page).

Definition checkPermission (origin : string) (address : option string) :
    M (option PermissionRequest) :=
  let* selectedAddress := gets selectedAccount in
  let currentAddress := default selectedAddress address in
  let* store := gets db in
  ret (db_checkPermission origin currentAddress store).

(** [promise.finally(f)] settles as the promise does unless [f] fails, in
    which case it rejects with [f]'s reason. *)
Definition routeSafeRequest (method : string) (params : list Value)
    (popupPromise : Completion Window) : M Value :=
  perform (RouteSafeRPCRequest method params) ;;;
  let settled := routeSafeRPCRequest method params in
  let* popup := await popupPromise in
  match window_id popup with
  | Some id => perform (WindowsRemove id)
  | None => ret tt
  end ;;;
  await settled.

Definition routeContentScriptRPCRequest (enablingPermission : PermissionRequest)
    (method : string) (params : list Value) : M Value :=
  try_catch
    (if one_of method account_methods then
       ret (VArr [VStr (accountAddress enablingPermission)])
     else if one_of method typed_data_methods then
       await (checkPermissionSignTypedData (index params 0) enablingPermission) ;;;
       let* popupPromise := call_showExtensionPopup signData in
       routeSafeRequest method params popupPromise
     else if one_of method sign_methods then
       await (checkPermissionSign (index params 1) enablingPermission) ;;;
       let* popupPromise := call_showExtensionPopup personalSignData in
       routeSafeRequest method params popupPromise
     else if one_of method transaction_methods then
       await (checkPermissionSignTransaction (index params 0) enablingPermission) ;;;
       let* popupPromise := call_showExtensionPopup signTransaction in
       routeSafeRequest method params popupPromise
     else
       perform (RouteSafeRPCRequest method params) ;;;
       await (routeSafeRPCRequest method params))
    (fun error =>
       perform (LoggerLog "error processing request" error) ;;;
       ret (VError userRejectedRequest)).

(** The promise executor runs at once, so the continuation is in the table
    when [requestPermission] returns the promise (named by its number). *)
Definition requestPermission (permissionRequest : PermissionRequest) : M nat :=
  perform (EmitRequestPermission permissionRequest) ;;;
  let* popupPromise := call_showExtensionPopup dappPermission in
  let* _ := await popupPromise in
  let* resolve := gets nextPromise in
  modify bump_nextPromise ;;;
  modify (set_pending <[origin permissionRequest := resolve]>) ;;;
  ret resolve.

Definition notifyContentScriptAboutConfigChange (newDefaultWalletValue : bool) :
    M unit :=
  let* ports := gets openPorts in
  fold_right
    (fun p rest =>
       postMessage p
         {| response_id := tallyHo;
            result := VObj [("method", VStr "tally_getConfig");
                            ("defaultWallet", VBool newDefaultWalletValue)] |} ;;;
       rest)
    (ret tt) ports.

Definition address_item (newAddress : option string) : Value :=
  match newAddress with
  | Some a => VStr a
  | None => VUndefined
  end.

(** The body of the [forEach] callback.  A port without a sender url makes
    [new URL] throw inside the detached callback: nothing is posted. *)
Definition notifyPortAboutAddressChange (newAddress : option string)
    (port : Port) : M unit :=
  match sender_url port with
  | None => ret tt
  | Some url =>
      let origin := URL_origin url in
      let* permission := checkPermission origin None in
      if bool_decide (is_Some permission) then
        postMessage port
          {| response_id := tallyHo;
             result := VObj [("method", VStr "tally_accountChanged");
                             ("address", VArr [address_item newAddress])] |}
      else
        postMessage port
          {| response_id := tallyHo;
             result := VObj [("method", VStr "tally_accountChanged");
                             ("address", VArr [])] |}
  end.

Definition notifyContentScriptsAboutAddressChange (newAddress : option string) :
    M unit :=
  let* ports := gets openPorts in
  fold_right
    (fun port rest => notifyPortAboutAddressChange newAddress port ;;; rest)
    (ret tt) ports.

Definition grantPermission (permission : PermissionRequest) : M unit :=
  if negb (PermissionState_eqb (state permission) allow)
     || negb (truthy (accountAddress permission)) then ret tt
  else
    modify (set_db (db_setPermission permission)) ;;;
    let* pending := gets pendingPermissionsRequests in
    match pending !! origin permission with
    | Some resolve =>
        perform (Resolve resolve (ResolvedByGrant permission)) ;;;
        modify (set_pending (delete (origin permission)))
    | None => ret tt
    end.

Definition denyOrRevokePermission (permission : PermissionRequest) : M unit :=
  if negb (PermissionState_eqb (state permission) deny)
     || negb (truthy (accountAddress permission)) then ret tt
  else
    let* address := gets selectedAccount in
    modify (set_db (db_deletePermission (origin permission) address)) ;;;
    let* pending := gets pendingPermissionsRequests in
    match pending !! origin permission with
    | Some resolve =>
        perform (Resolve resolve (ResolvedByDeny "Time to move on")) ;;;
        modify (set_pending (delete (origin permission)))
    | None => ret tt
    end ;;;
    notifyContentScriptsAboutAddressChange None.

(** Where the handling of one message stands when the handler gives
    control back: done, or parked on the promise of the user's action. *)
Inductive ListenerStatus :=
| Finished
| AwaitingUserAction (blockUntilUserAction : nat).

(** [{...tab, ...(await browser.tabs.get(tab.id))}]: the queried tab's
    properties win where it has them. *)
Definition spread_tab (tab queried : Tab) : Tab :=
  {| tab_id := from_option Some (tab_id tab) (tab_id queried);
     favIconUrl := from_option Some (favIconUrl tab) (favIconUrl queried);
     tab_title := from_option Some (tab_title tab) (tab_title queried) |}.

Definition completeTab (tab : option Tab) : option Tab :=
  match tab with
  | Some t =>
      match tab_id t with
      | Some id => Some (spread_tab t (browser_tabs_get id))
      | None => tab
      end
  | None => tab
  end.

(** [onMessageListener] up to [port.postMessage(response)], or up to the
    suspension on [blockUntilUserAction]. *)
Definition onMessageListener (port : Port) (event : PortRequestEvent) :
    M ListenerStatus :=
  match sender_url port with
  | None => ret Finished
  | Some url =>
      let origin := URL_origin url in
      let tab := completeTab (sender_tab port) in
      let faviconUrl := default "" (tab ≫= favIconUrl) in
      let title := default "" (tab ≫= tab_title) in
      let* originPermission := checkPermission origin None in
      if isTallyConfigPayload (request event) then
        let* wallet := gets defaultWallet in
        postMessage port
          {| response_id := tallyHo;
             result := VObj [("method", VStr (method (request event)));
                             ("defaultWallet", VBool wallet)] |} ;;;
        ret Finished
      else if String.eqb (method (request event)) "tally_setClaimReferrer" then
        match index (params (request event)) 0 with
        | VStr referrer =>
            if negb (String.eqb origin WEBSITE_ORIGIN) then
              perform (LoggerWarn "invalid 'setClaimReferrer' request") ;;;
              ret Finished
            else
              perform (EmitSetClaimReferrer referrer) ;;;
              postMessage port
                {| response_id := request_id event; result := VNull |} ;;;
              ret Finished
        | _ =>
            perform (LoggerWarn "invalid 'setClaimReferrer' request") ;;;
            ret Finished
        end
      else
        match originPermission with
        | Some permission =>
            let* routed :=
              routeContentScriptRPCRequest permission
                (method (request event)) (params (request event)) in
            postMessage port
              {| response_id := request_id event; result := routed |} ;;;
            ret Finished
        | None =>
            if String.eqb (method (request event)) "eth_requestAccounts" then
              let* accountAddress := gets selectedAccount in
              let permissionRequest :=
                {| key := origin +:+ "_" +:+ accountAddress;
                   origin := origin;
                   faviconUrl := faviconUrl;
                   title := title;
                   state := request_state;
                   accountAddress := accountAddress |} in
              let* blockUntilUserAction := requestPermission permissionRequest in
              ret (AwaitingUserAction blockUntilUserAction)
            else
              postMessage port
                {| response_id := request_id event;
                   result := VError unauthorized |} ;;;
              ret Finished
        end
  end.

(** The rest of [onMessageListener], run once [blockUntilUserAction] has
    been resolved. *)
Definition onMessageListener_resumed (port : Port) (event : PortRequestEvent) :
    M ListenerStatus :=
  match sender_url port with
  | None => ret Finished
  | Some url =>
      let origin := URL_origin url in
      let* persistedPermission := checkPermission origin None in
      match persistedPermission with
      | Some permission =>
          let* routed :=
            routeContentScriptRPCRequest permission "eth_accounts"
              (params (request event)) in
          postMessage port
            {| response_id := request_id event; result := routed |} ;;;
          ret Finished
      | None =>
          postMessage port
            {| response_id := request_id event;
               result := VError userRejectedRequest |} ;;;
          ret Finished
      end
  end.


(** ** Reading the broadcast and the consent table off the state *)

(** What the account-change broadcast posts on one port, read off the
    state. *)
Definition address_push (st : Service) (newAddress : option string)
    (port : Port) : list Effect :=
  match sender_url port with
  | None => []
  | Some url =>
      [PostMessage port
         {| response_id := tallyHo;
            result :=
              VObj [("method", VStr "tally_accountChanged");
                    ("address",
                     VArr (if bool_decide
                                (is_Some (db st !! (URL_origin url,
                                                    selectedAccount st)))
                           then [address_item newAddress] else []))] |}]
  end.

(** The call of the continuation pending for an origin, if there is one. *)
Definition resolve_pending (st : Service) (origin : string)
    (value : Resolution) : list Effect :=
  match pendingPermissionsRequests st !! origin with
  | Some resolve => [Resolve resolve value]
  | None => []
  end.

(** The permission request built for an origin from the selected account
    and the tab's metadata. *)
Definition permission_request_of (st : Service) (port : Port) (url : string) :
    PermissionRequest :=
  {| key := URL_origin url +:+ "_" +:+ selectedAccount st;
     origin := URL_origin url;
     faviconUrl := default "" (completeTab (sender_tab port) ≫= favIconUrl);
     title := default "" (completeTab (sender_tab port) ≫= tab_title);
     state := request_state;
     accountAddress := selectedAccount st |}.

(** Every open port has a sender url: what [onConnect] checks before it
    stores a port. *)
Definition ports_have_urls (st : Service) : Prop :=
  Forall (fun port => is_Some (sender_url port)) (openPorts st).

(** The messages of a broadcast that are not addressed to a given port. *)
Definition not_addressed_to (port : Port) (message : Port * PortResponseEvent) :
    Prop :=
  port_ref message.1 ≠ port_ref port.

(** ** Properties *)

Lemma one_of_In (method : string) (labels : list string) :
  one_of method labels = true ↔ In method labels.
Proof.
  unfold one_of. rewrite existsb_exists. split.
  - intros (x & Hx & Heq). apply String.eqb_eq in Heq. by subst.
  - intros Hin. exists method. split; [done | apply String.eqb_refl].
Qed.

Lemma one_of_false (method : string) (labels : list string) :
  ¬ In method labels → one_of method labels = false.
Proof.
  intros Hn. destruct (one_of method labels) eqn:E; [| done].
  apply one_of_In in E. contradiction.
Qed.

Lemma checkPermission_lookup (st : Service) (origin : string) :
  checkPermission origin None st
  = (Return (db st !! (origin, selectedAccount st)), st, []).
Proof. reflexivity. Qed.

(** C4: with a grant, [eth_accounts] and [eth_requestAccounts] answer the
    one-element list of the grant's account at once: the state is
    untouched and the trace is empty, so no popup is opened and the
    internal provider is not called. *)
Theorem account_methods_answer_directly (st : Service)
    (grant : PermissionRequest) (method : string) (params : list Value) :
  method = "eth_accounts" ∨ method = "eth_requestAccounts" →
  routeContentScriptRPCRequest grant method params st
  = (Return (VArr [VStr (accountAddress grant)]), st, []).
Proof.
  intros [-> | ->]; reflexivity.
Qed.

Lemma requestPermission_registers (st : Service)
    (permissionRequest : PermissionRequest) :
  requestPermission permissionRequest st
  = match showExtensionPopup dappPermission with
    | Return _ =>
        (Return (nextPromise st),
         set_pending <[origin permissionRequest := nextPromise st]>
           (bump_nextPromise st),
         [EmitRequestPermission permissionRequest;
          ShowExtensionPopup dappPermission])
    | Throw e =>
        (Throw e, st,
         [EmitRequestPermission permissionRequest;
          ShowExtensionPopup dappPermission])
    end.
Proof.
  unfold requestPermission, bind, call_showExtensionPopup, perform, ret, await.
  simpl. destruct (showExtensionPopup dappPermission); reflexivity.
Qed.

(** The two ways a dApp message from an origin without a grant for the
    selected account is handled. *)
Lemma onMessageListener_without_grant (st : Service) (port : Port)
    (event : PortRequestEvent) (url : string) :
  sender_url port = Some url →
  db st !! (URL_origin url, selectedAccount st) = None →
  isTallyConfigPayload (request event) = false →
  method (request event) ≠ "tally_setClaimReferrer" →
  onMessageListener port event st
  = if String.eqb (method (request event)) "eth_requestAccounts" then
      match showExtensionPopup dappPermission with
      | Return _ =>
          (Return (AwaitingUserAction (nextPromise st)),
           set_pending <[URL_origin url := nextPromise st]>
             (bump_nextPromise st),
           [EmitRequestPermission (permission_request_of st port url);
            ShowExtensionPopup dappPermission])
      | Throw e =>
          (Throw e, st,
           [EmitRequestPermission (permission_request_of st port url);
            ShowExtensionPopup dappPermission])
      end
    else
      (Return Finished, st,
       [PostMessage port {| response_id := request_id event;
                            result := VError unauthorized |}]).
Proof.
  intros Hurl Hnone Hconfig Hreferrer.
  unfold onMessageListener. rewrite Hurl.
  unfold bind at 1. rewrite checkPermission_lookup, Hnone, Hconfig.
  apply String.eqb_neq in Hreferrer. rewrite Hreferrer.
  destruct (String.eqb (method (request event)) "eth_requestAccounts");
    [| reflexivity].
  unfold bind at 1. unfold gets at 1. cbv beta iota zeta. unfold bind at 1.
  rewrite requestPermission_registers.
  destruct (showExtensionPopup dappPermission); reflexivity.
Qed.

(** C1: a dApp message (neither the wallet-config query nor
    [tally_setClaimReferrer]) from an origin without a grant for the
    selected account, asking for anything but [eth_requestAccounts], gets
    exactly one reply, on its own port, whose result is the
    [unauthorized] error object; nothing else happens. *)
Theorem unauthorized_without_grant (st : Service) (port : Port)
    (event : PortRequestEvent) (url : string) :
  sender_url port = Some url →
  db st !! (URL_origin url, selectedAccount st) = None →
  isTallyConfigPayload (request event) = false →
  method (request event) ≠ "tally_setClaimReferrer" →
  method (request event) ≠ "eth_requestAccounts" →
  onMessageListener port event st
  = (Return Finished, st,
     [PostMessage port {| response_id := request_id event;
                          result := VError unauthorized |}]).
Proof.
  intros Hurl Hnone Hconfig Hreferrer Haccounts.
  rewrite (onMessageListener_without_grant st port event url) by done.
  apply String.eqb_neq in Haccounts. by rewrite Haccounts.
Qed.

(** C10: a [tally_setClaimReferrer] message whose port's origin is not
    the allowed website, or whose first parameter is not a string, only
    logs a warning: the handler is done with the state unchanged, no
    [setClaimReferrer] event emitted and nothing posted on any port. *)
Theorem invalid_claim_referrer_gets_no_reply (st : Service) (port : Port)
    (event : PortRequestEvent) (url : string) :
  sender_url port = Some url →
  isTallyConfigPayload (request event) = false →
  method (request event) = "tally_setClaimReferrer" →
  URL_origin url ≠ WEBSITE_ORIGIN
    ∨ (∀ s, index (params (request event)) 0 ≠ VStr s) →
  onMessageListener port event st
  = (Return Finished, st, [LoggerWarn "invalid 'setClaimReferrer' request"])
  ∧ posted (trace (onMessageListener port event st)) = []
  ∧ referrers (trace (onMessageListener port event st)) = [].
Proof.
  intros Hurl Hconfig Hmethod Hbad.
  assert (onMessageListener port event st
          = (Return Finished, st,
             [LoggerWarn "invalid 'setClaimReferrer' request"])) as Heq.
  { unfold onMessageListener. rewrite Hurl.
    unfold bind at 1. rewrite checkPermission_lookup, Hconfig, Hmethod.
    simpl String.eqb. cbv iota.
    destruct (index (params (request event)) 0) eqn:Hreferrer;
      try reflexivity.
    destruct Hbad as [Horigin | Hstring].
    - apply String.eqb_neq in Horigin. rewrite Horigin. reflexivity.
    - exfalso. by eapply Hstring. }
  rewrite Heq. repeat split.
Qed.

Lemma routeSafeRequest_settles (st : Service) (method : string)
    (params : list Value) (popupPromise : Completion Window) :
  routeSafeRequest method params popupPromise st
  = match popupPromise with
    | Throw e => (Throw e, st, [RouteSafeRPCRequest method params])
    | Return popup =>
        (routeSafeRPCRequest method params, st,
         RouteSafeRPCRequest method params
           :: match window_id popup with
              | Some id => [WindowsRemove id]
              | None => []
              end)
    end.
Proof.
  unfold routeSafeRequest, bind, perform, await.
  destruct popupPromise as [popup | e]; simpl; [| reflexivity].
  destruct (window_id popup); simpl;
    destruct (routeSafeRPCRequest method params); reflexivity.
Qed.

(** X18: the check of a signing-family call is made on the parameter the
    router reads for the family ([signer_parameter]).  When that parameter
    is an address other than the grant's account, the call is stopped
    before any popup or dispatch: the router logs the failure and returns
    the [userRejectedRequest] error object, the internal provider's
    [routeSafeRPCRequest] is not called, and the reply posted to the page
    carries that error object. *)
Theorem foreign_signer_is_rejected_before_dispatch (st : Service)
    (grant : PermissionRequest) (method : string) (params : list Value)
    (signer : string) :
  In method signing_family →
  signer_parameter method params = VStr signer →
  sameEVMAddress signer (accountAddress grant) = false →
  routeContentScriptRPCRequest grant method params st
  = (Return (VError userRejectedRequest), st,
     [LoggerLog "error processing request" UnauthorizedSigner])
  ∧ dispatched (trace (routeContentScriptRPCRequest grant method params st)) = []
  ∧ popups (trace (routeContentScriptRPCRequest grant method params st)) = []
  ∧ ∀ port event url,
      sender_url port = Some url →
      db st !! (URL_origin url, selectedAccount st) = Some grant →
      isTallyConfigPayload (request event) = false →
      request event = {| method := method; params := params |} →
      onMessageListener port event st
      = (Return Finished, st,
         [LoggerLog "error processing request" UnauthorizedSigner;
          PostMessage port {| response_id := request_id event;
                              result := VError userRejectedRequest |}]).
Proof.
  intros Hfamily Hsigner Hforeign.
  assert (routeContentScriptRPCRequest grant method params st
          = (Return (VError userRejectedRequest), st,
             [LoggerLog "error processing request" UnauthorizedSigner]))
    as Hrouted.
  { simpl in Hfamily.
    repeat (destruct Hfamily as [<- | Hfamily]); try contradiction;
      unfold signer_parameter in Hsigner; simpl in Hsigner;
      unfold routeContentScriptRPCRequest, try_catch, bind; simpl;
      unfold checkPermissionSignTypedData, checkPermissionSignTransaction,
        checkPermissionSign;
      rewrite Hsigner, Hforeign; reflexivity. }
  rewrite Hrouted. repeat split.
  intros port [id called] url Hurl Hgrant Hconfig Hrequest.
  simpl in Hconfig, Hrequest. subst called.
  unfold onMessageListener. rewrite Hurl.
  unfold bind at 1. rewrite checkPermission_lookup, Hgrant.
  simpl. rewrite Hconfig.
  replace (String.eqb method "tally_setClaimReferrer") with false.
  - unfold bind. rewrite Hrouted. reflexivity.
  - symmetry. apply String.eqb_neq. intros ->.
    simpl in Hfamily. intuition discriminate.
Qed.

(** What [try]/[catch] around a body that can only return what the
    dispatch resolved with looks like from outside. *)
Lemma caught_dispatch_shape (body : M Value) (st : Service)
    (method : string) (params : list Value) :
  (∀ v, completion (body st) = Return v →
        routeSafeRPCRequest method params = Return v) →
  ∃ v,
    completion
      (try_catch body
         (fun error =>
            perform (LoggerLog "error processing request" error) ;;;
            ret (VError userRejectedRequest)) st) = Return v
    ∧ (routeSafeRPCRequest method params = Return v
       ∨ v = VError userRejectedRequest)
    ∧ (∀ e, routeSafeRPCRequest method params = Throw e →
            v = VError userRejectedRequest).
Proof.
  intros Hforwards. unfold try_catch.
  destruct (body st) as [[[v | e] s1] t1]; simpl in *.
  - exists v. specialize (Hforwards v eq_refl).
    split; [reflexivity |]. split; [by left | congruence].
  - eexists. split; [reflexivity |]. split; [by right | done].
Qed.

Lemma guarded_dispatch_forwards (check : Completion unit)
    (page : AllowedQueryParamPage) (st : Service) (method : string)
    (params : list Value) (v : Value) :
  completion
    ((await check ;;;
      let* popupPromise := call_showExtensionPopup page in
      routeSafeRequest method params popupPromise) st) = Return v →
  routeSafeRPCRequest method params = Return v.
Proof.
  unfold bind at 1. destruct check as [[] | e]; simpl; [| done].
  unfold bind, call_showExtensionPopup, perform, ret. simpl.
  rewrite routeSafeRequest_settles.
  destruct (showExtensionPopup page) as [popup | e]; simpl; done.
Qed.

Lemma routing_shape (st : Service) (grant : PermissionRequest)
    (method : string) (params : list Value) :
  ∃ v,
    completion (routeContentScriptRPCRequest grant method params st) = Return v
    ∧ (v = VArr [VStr (accountAddress grant)]
       ∨ routeSafeRPCRequest method params = Return v
       ∨ v = VError userRejectedRequest)
    ∧ (∀ e, routeSafeRPCRequest method params = Throw e →
            ¬ In method account_methods →
            v = VError userRejectedRequest).
Proof.
  unfold routeContentScriptRPCRequest.
  destruct (one_of method account_methods) eqn:Haccounts.
  { apply one_of_In in Haccounts. eexists. split; [reflexivity |].
    split; [by left | intros; contradiction]. }
  assert (∀ body : M Value,
    (∀ v, completion (body st) = Return v →
          routeSafeRPCRequest method params = Return v) →
    ∃ v,
      completion
        (try_catch body
           (fun error =>
              perform (LoggerLog "error processing request" error) ;;;
              ret (VError userRejectedRequest)) st) = Return v
      ∧ (v = VArr [VStr (accountAddress grant)]
         ∨ routeSafeRPCRequest method params = Return v
         ∨ v = VError userRejectedRequest)
      ∧ (∀ e, routeSafeRPCRequest method params = Throw e →
              ¬ In method account_methods →
              v = VError userRejectedRequest)) as Hcaught.
  { intros body Hforwards.
    destruct (caught_dispatch_shape body st method params Hforwards)
      as (v & Hv & Hshape & Hraised).
    exists v. split; [done |]. split; [| eauto].
    destruct Hshape as [Hshape | Hshape]; [right; by left | right; by right]. }
  repeat match goal with
  | |- context [if one_of ?m ?l then _ else _] => destruct (one_of m l)
  end;
  apply Hcaught; intros v.
  1-3: apply guarded_dispatch_forwards.
  unfold bind, perform, await. simpl.
  destruct (routeSafeRPCRequest method params); simpl; done.
Qed.

Lemma routing_never_throws (st : Service) (grant : PermissionRequest)
    (method : string) (params : list Value) :
  ∃ v, completion (routeContentScriptRPCRequest grant method params st)
       = Return v.
Proof.
  destruct (routing_shape st grant method params) as (v & Hv & _).
  by exists v.
Qed.

Lemma routeContentScriptRPCRequest_posts_nothing (st : Service)
    (grant : PermissionRequest) (method : string) (params : list Value) :
  posted (trace (routeContentScriptRPCRequest grant method params st)) = [].
Proof.
  unfold routeContentScriptRPCRequest, try_catch,
    checkPermissionSignTypedData, checkPermissionSignTransaction.
  repeat match goal with
  | |- context [if one_of ?m ?l then _ else _] => destruct (one_of m l)
  end;
  unfold bind, call_showExtensionPopup, perform, ret, await; simpl;
  try reflexivity;
  try match goal with
      | |- context [checkPermissionSign ?a ?g] =>
          destruct (checkPermissionSign a g) as [[] | ?]; simpl;
          try reflexivity
      end;
  try (rewrite routeSafeRequest_settles;
       match goal with
       | |- context [showExtensionPopup ?page] =>
           destruct (showExtensionPopup page) as [popup | ?]; simpl;
           try reflexivity; destruct (window_id popup)
       end);
  destruct (routeSafeRPCRequest method params); reflexivity.
Qed.

Lemma posted_after_routing (st : Service) (grant : PermissionRequest)
    (method : string) (params : list Value) (port : Port) (id : MessageId)
    (routed : Value) :
  completion (routeContentScriptRPCRequest grant method params st)
  = Return routed →
  posted (trace
    (match
       (let* routed := routeContentScriptRPCRequest grant method params in
        postMessage port {| response_id := id; result := routed |} ;;;
        ret Finished) st
     with
     | (r, s2, t2) => (r, s2, [] ++ t2)
     end))
  = [(port, {| response_id := id; result := routed |})].
Proof.
  intros Hrouted.
  pose proof (routeContentScriptRPCRequest_posts_nothing st grant method params)
    as Hnone.
  unfold bind at 1.
  destruct (routeContentScriptRPCRequest grant method params st)
    as [[[v | e] s1] t1]; simpl in Hrouted; [| discriminate].
  injection Hrouted as ->. simpl in *. unfold posted in *.
  rewrite omap_app, Hnone. reflexivity.
Qed.

(** A dApp message from an origin with a grant is answered with what the
    router returns. *)
Lemma onMessageListener_with_grant (st : Service) (port : Port)
    (event : PortRequestEvent) (url : string) (grant : PermissionRequest)
    (routed : Value) :
  sender_url port = Some url →
  db st !! (URL_origin url, selectedAccount st) = Some grant →
  isTallyConfigPayload (request event) = false →
  method (request event) ≠ "tally_setClaimReferrer" →
  completion (routeContentScriptRPCRequest grant (method (request event))
                (params (request event)) st) = Return routed →
  posted (trace (onMessageListener port event st))
  = [(port, {| response_id := request_id event; result := routed |})].
Proof.
  intros Hurl Hgrant Hconfig Hreferrer Hrouted.
  unfold onMessageListener. rewrite Hurl.
  unfold bind at 1. rewrite checkPermission_lookup, Hgrant, Hconfig.
  apply String.eqb_neq in Hreferrer. rewrite Hreferrer.
  by apply posted_after_routing.
Qed.

(** C8: routing with a grant never throws.  What it returns is the
    grant's account list, the value the internal provider's dispatch
    resolved with, or the [userRejectedRequest] error object; when the
    dispatch of a forwarded call fails, whatever it raised, the result is
    that error object, so the raised value does not reach the page: the one
    reply posted for the call carries the router's result. *)
Theorem routing_failures_become_user_rejections (st : Service)
    (grant : PermissionRequest) (method : string) (params : list Value) :
  ∃ v,
    completion (routeContentScriptRPCRequest grant method params st) = Return v
    ∧ (v = VArr [VStr (accountAddress grant)]
       ∨ routeSafeRPCRequest method params = Return v
       ∨ v = VError userRejectedRequest)
    ∧ (∀ e, routeSafeRPCRequest method params = Throw e →
            ¬ In method account_methods →
            v = VError userRejectedRequest)
    ∧ (∀ port id url,
         sender_url port = Some url →
         db st !! (URL_origin url, selectedAccount st) = Some grant →
         isTallyConfigPayload {| method := method; params := params |} = false →
         method ≠ "tally_setClaimReferrer" →
         posted (trace
           (onMessageListener port
              {| request_id := id;
                 request := {| method := method; params := params |} |} st))
         = [(port, {| response_id := id; result := v |})]).
Proof.
  destruct (routing_shape st grant method params)
    as (v & Hrouted & Hshape & Hraised).
  exists v. repeat split; try done.
  intros port id url Hurl Hgrant Hconfig Hreferrer.
  exact (onMessageListener_with_grant st port
           {| request_id := id;
              request := {| method := method; params := params |} |}
           url grant v Hurl Hgrant Hconfig Hreferrer Hrouted).
Qed.

(** ** The consent callbacks and the broadcast *)

Lemma notifyPortAboutAddressChange_push (st : Service)
    (newAddress : option string) (port : Port) :
  notifyPortAboutAddressChange newAddress port st
  = (Return tt, st, address_push st newAddress port).
Proof.
  unfold notifyPortAboutAddressChange, address_push.
  destruct (sender_url port) as [url |]; [| reflexivity].
  unfold bind. rewrite checkPermission_lookup.
  case_bool_decide; reflexivity.
Qed.

Lemma address_change_loop (st : Service) (newAddress : option string)
    (ports : list Port) :
  fold_right
    (fun port rest => notifyPortAboutAddressChange newAddress port ;;; rest)
    (ret tt) ports st
  = (Return tt, st, flat_map (address_push st newAddress) ports).
Proof.
  induction ports as [| port ports IH]; [reflexivity |].
  simpl. unfold bind at 1.
  rewrite notifyPortAboutAddressChange_push, IH. reflexivity.
Qed.

(** The broadcast posts, port by port in the order of [openPorts], what
    [address_push] says, and leaves the state alone. *)
Lemma notifyContentScriptsAboutAddressChange_pushes (st : Service)
    (newAddress : option string) :
  notifyContentScriptsAboutAddressChange newAddress st
  = (Return tt, st, flat_map (address_push st newAddress) (openPorts st)).
Proof.
  unfold notifyContentScriptsAboutAddressChange, bind at 1, gets.
  rewrite address_change_loop. reflexivity.
Qed.

Lemma onConnect_keeps_urls (st : Service) (port : Port) :
  ports_have_urls st → ports_have_urls (final (onConnect port st)).
Proof.
  unfold ports_have_urls, onConnect. intros Hurls.
  destruct (sender_url port) as [url |] eqn:Hurl; simpl;
    [| by rewrite andb_false_r].
  destruct (_ && _); simpl; [| done].
  apply Forall_app. split; [done |].
  apply Forall_singleton. by rewrite Hurl.
Qed.

Lemma onDisconnect_keeps_urls (st : Service) (port : Port) :
  ports_have_urls st → ports_have_urls (final (onDisconnect port st)).
Proof.
  unfold ports_have_urls, onDisconnect. simpl.
  rewrite !Forall_forall. intros Hurls openPort Hin.
  apply list_elem_of_filter in Hin as [_ Hin]. by apply Hurls.
Qed.

(** X17: when every open port has a sender url, as [onConnect] ensures,
    the account-change broadcast reaches every open port, once, in order:
    the address list is empty for a port whose origin has no grant for the
    selected account and holds the broadcast's address otherwise. *)
Lemma address_change_reaches_every_port (st : Service)
    (newAddress : option string) :
  ports_have_urls st →
  posted (trace (notifyContentScriptsAboutAddressChange newAddress st))
  = map (fun port =>
           (port,
            {| response_id := tallyHo;
               result :=
                 VObj [("method", VStr "tally_accountChanged");
                       ("address",
                        VArr (if bool_decide
                                   (is_Some
                                      (db st !! (from_option URL_origin ""
                                                   (sender_url port),
                                                 selectedAccount st)))
                              then [address_item newAddress] else []))] |}))
      (openPorts st).
Proof.
  rewrite notifyContentScriptsAboutAddressChange_pushes. unfold ports_have_urls.
  simpl. induction (openPorts st) as [| port ports IH]; [reflexivity |].
  intros Hurls. apply Forall_cons in Hurls as [[url Hurl] Hurls].
  simpl. unfold posted in *. rewrite omap_app, IH by done.
  unfold address_push. rewrite Hurl. reflexivity.
Qed.

Lemma grantPermission_unfold (st : Service) (permission : PermissionRequest) :
  grantPermission permission st
  = if negb (PermissionState_eqb (state permission) allow)
       || negb (truthy (accountAddress permission))
    then (Return tt, st, [])
    else (Return tt,
          set_pending (delete (origin permission))
            (set_db (db_setPermission permission) st),
          resolve_pending st (origin permission) (ResolvedByGrant permission)).
Proof.
  unfold grantPermission, resolve_pending.
  destruct (_ || _); [reflexivity |].
  unfold bind, modify, gets, perform. simpl.
  destruct (pendingPermissionsRequests st !! origin permission) eqn:Hpending;
    simpl; [reflexivity |].
  unfold ret, set_pending. simpl. rewrite delete_id by done.
  destruct st; reflexivity.
Qed.

Lemma denyOrRevokePermission_unfold (st : Service)
    (permission : PermissionRequest) :
  denyOrRevokePermission permission st
  = if negb (PermissionState_eqb (state permission) deny)
       || negb (truthy (accountAddress permission))
    then (Return tt, st, [])
    else
      let st' :=
        set_pending (delete (origin permission))
          (set_db (db_deletePermission (origin permission)
                     (selectedAccount st)) st) in
      (Return tt, st',
       resolve_pending st (origin permission)
         (ResolvedByDeny "Time to move on")
       ++ flat_map (address_push st' None) (openPorts st')).
Proof.
  unfold denyOrRevokePermission, resolve_pending.
  destruct (_ || _); [reflexivity |].
  unfold bind at 1 2 3 4. unfold modify at 1, gets at 1 2. simpl.
  destruct (pendingPermissionsRequests st !! origin permission) eqn:Hpending.
  - unfold bind, perform, modify.
    rewrite notifyContentScriptsAboutAddressChange_pushes. reflexivity.
  - unfold ret.
    rewrite notifyContentScriptsAboutAddressChange_pushes.
    unfold set_pending. simpl. rewrite delete_id by done.
    destruct st; reflexivity.
Qed.

Lemma guard_passes (permission : PermissionRequest) (wanted : PermissionState) :
  state permission = wanted ∧ accountAddress permission ≠ "" →
  negb (PermissionState_eqb (state permission) wanted)
    || negb (truthy (accountAddress permission)) = false.
Proof.
  intros [-> Haccount]. apply String.eqb_neq in Haccount.
  unfold truthy. rewrite Haccount. by destruct wanted.
Qed.

Lemma guard_fails (permission : PermissionRequest) (wanted : PermissionState) :
  ¬ (state permission = wanted ∧ accountAddress permission ≠ "") →
  negb (PermissionState_eqb (state permission) wanted)
    || negb (truthy (accountAddress permission)) = true.
Proof.
  intros Hnot. unfold truthy.
  destruct (String.eqb_spec (accountAddress permission) "") as [Hempty | Hfull];
    [by rewrite orb_true_r |].
  destruct (state permission) eqn:Hstate, wanted; simpl; try reflexivity;
    exfalso; apply Hnot; done.
Qed.

(** C5: [grantPermission] stores the permission (under its origin and
    account) exactly when its state is [allow] and its account address is
    non-empty, and then calls and removes the continuation pending for
    its origin, if any; [denyOrRevokePermission] deletes the grant of the
    permission's origin for the selected account exactly when the state
    is [deny] and the account address is non-empty, then calls and
    removes the pending continuation and runs the account-change
    broadcast (without an address) on the new state.  When the guard
    fails either function returns with the state, store and table
    included, as it was and no effect. *)
Theorem consent_callbacks_are_guarded (st : Service)
    (permission : PermissionRequest) :
  (state permission = allow ∧ accountAddress permission ≠ "" →
     let r := grantPermission permission st in
     completion r = Return tt
     ∧ db (final r)
       = <[(origin permission, accountAddress permission) := permission]> (db st)
     ∧ pendingPermissionsRequests (final r)
       = delete (origin permission) (pendingPermissionsRequests st)
     ∧ trace r
       = resolve_pending st (origin permission) (ResolvedByGrant permission))
  ∧ (¬ (state permission = allow ∧ accountAddress permission ≠ "") →
     grantPermission permission st = (Return tt, st, []))
  ∧ (state permission = deny ∧ accountAddress permission ≠ "" →
     let r := denyOrRevokePermission permission st in
     completion r = Return tt
     ∧ db (final r) = delete (origin permission, selectedAccount st) (db st)
     ∧ pendingPermissionsRequests (final r)
       = delete (origin permission) (pendingPermissionsRequests st)
     ∧ trace r
       = resolve_pending st (origin permission)
           (ResolvedByDeny "Time to move on")
         ++ trace (notifyContentScriptsAboutAddressChange None (final r)))
  ∧ (¬ (state permission = deny ∧ accountAddress permission ≠ "") →
     denyOrRevokePermission permission st = (Return tt, st, [])).
Proof.
  rewrite grantPermission_unfold, denyOrRevokePermission_unfold.
  repeat split.
  1-4: rewrite (guard_passes _ _ H); reflexivity.
  - intros Hnot. by rewrite (guard_fails _ _ Hnot).
  - rewrite (guard_passes _ _ H); reflexivity.
  - rewrite (guard_passes _ _ H); reflexivity.
  - rewrite (guard_passes _ _ H); reflexivity.
  - rewrite (guard_passes _ _ H). cbn zeta.
    rewrite notifyContentScriptsAboutAddressChange_pushes. reflexivity.
  - intros Hnot. by rewrite (guard_fails _ _ Hnot).
Qed.

(** ** Grants per account, one continuation per origin *)

Lemma resolved_address_pushes (st : Service) (newAddress : option string)
    (ports : list Port) :
  resolved (flat_map (address_push st newAddress) ports) = [].
Proof.
  induction ports as [| port ports IH]; [reflexivity |].
  simpl. unfold resolved in *. rewrite omap_app, IH.
  unfold address_push. by destruct (sender_url port).
Qed.

Lemma resolved_resolve_pending (st : Service) (origin : string)
    (value : Resolution) :
  resolved (resolve_pending st origin value)
  = match pendingPermissionsRequests st !! origin with
    | Some resolve => [resolve]
    | None => []
    end.
Proof.
  unfold resolve_pending. by destruct (pendingPermissionsRequests st !! origin).
Qed.

(** What a user decision (either callback) resolves, and what it leaves in
    the table for the permission's origin. *)
Lemma decision_resolves_pending (st : Service) (permission : PermissionRequest)
    (decision : PermissionRequest → M unit) :
  In decision [grantPermission; denyOrRevokePermission] →
  decision permission st = (Return tt, st, [])
  ∨ (resolved (trace (decision permission st))
     = match pendingPermissionsRequests st !! origin permission with
       | Some resolve => [resolve]
       | None => []
       end
     ∧ pendingPermissionsRequests (final (decision permission st))
       = delete (origin permission) (pendingPermissionsRequests st)).
Proof.
  intros [<- | [<- | []]].
  - rewrite grantPermission_unfold.
    destruct (_ || _); [by left | right].
    split; [apply resolved_resolve_pending | reflexivity].
  - rewrite denyOrRevokePermission_unfold.
    destruct (_ || _); [by left | right].
    split; [| reflexivity].
    cbn zeta. unfold trace. cbn [snd].
    unfold resolved. rewrite omap_app.
    fold (resolved (resolve_pending st (origin permission)
                      (ResolvedByDeny "Time to move on"))).
    rewrite resolved_resolve_pending.
    match goal with
    | |- _ ++ ?t = _ => change t with (resolved
        (flat_map (address_push
           (set_pending (delete (origin permission))
              (set_db (db_deletePermission (origin permission)
                         (selectedAccount st)) st)) None)
           (openPorts st)))
    end.
    rewrite resolved_address_pushes. apply app_nil_r.
Qed.

(** C6: the lookup made for an inbound message reads the store at the
    pair (origin, selected account).  So after a grant for an account
    other than the selected one has been recorded for an origin that has
    none for the selected account, the lookup for that origin still finds
    nothing although the store holds the other grant, and a dApp message
    from the origin is not routed: any method but [eth_requestAccounts]
    is answered [unauthorized], and [eth_requestAccounts] only emits a
    fresh permission request for the selected account and opens the
    consent popup. *)
Theorem grants_are_per_account (st : Service) (permission : PermissionRequest)
    (port : Port) (event : PortRequestEvent) (url : string) :
  state permission = allow →
  accountAddress permission ≠ "" →
  accountAddress permission ≠ selectedAccount st →
  db st !! (origin permission, selectedAccount st) = None →
  sender_url port = Some url →
  URL_origin url = origin permission →
  isTallyConfigPayload (request event) = false →
  method (request event) ≠ "tally_setClaimReferrer" →
  let st' := final (grantPermission permission st) in
  (∀ o, checkPermission o None st'
        = (Return (db st' !! (o, selectedAccount st')), st', []))
  ∧ db st' !! (origin permission, accountAddress permission) = Some permission
  ∧ checkPermission (origin permission) None st' = (Return None, st', [])
  ∧ (method (request event) ≠ "eth_requestAccounts" →
     onMessageListener port event st'
     = (Return Finished, st',
        [PostMessage port {| response_id := request_id event;
                             result := VError unauthorized |}]))
  ∧ (method (request event) = "eth_requestAccounts" →
     trace (onMessageListener port event st')
     = [EmitRequestPermission (permission_request_of st' port url);
        ShowExtensionPopup dappPermission]
     ∧ accountAddress (permission_request_of st' port url)
       = selectedAccount st').
Proof.
  intros Hallow Haccount Hother Hnone Hurl Horigin Hconfig Hreferrer st'.
  assert (db st' = <[(origin permission, accountAddress permission)
                      := permission]> (db st)
          ∧ selectedAccount st' = selectedAccount st) as [Hdb Hselected].
  { subst st'. rewrite grantPermission_unfold.
    rewrite (guard_passes permission allow) by done. by split. }
  assert (db st' !! (origin permission, selectedAccount st') = None) as Hnone'.
  { rewrite Hdb, Hselected, lookup_insert_ne; [done | congruence]. }
  split; [intros o; apply checkPermission_lookup |].
  split; [rewrite Hdb; apply lookup_insert_eq |].
  split; [by rewrite checkPermission_lookup, Hnone' |].
  rewrite (onMessageListener_without_grant st' port event url);
    [| done | by rewrite Horigin | done | done].
  split.
  - intros Hmethod. apply String.eqb_neq in Hmethod. by rewrite Hmethod.
  - intros ->. simpl String.eqb. cbv iota.
    by destruct (showExtensionPopup dappPermission).
Qed.

Lemma passed_grant_resolves (st : Service) (permission : PermissionRequest) :
  state permission = allow ∧ accountAddress permission ≠ "" →
  trace (grantPermission permission st)
  = resolve_pending st (origin permission) (ResolvedByGrant permission)
  ∧ pendingPermissionsRequests (final (grantPermission permission st))
    = delete (origin permission) (pendingPermissionsRequests st).
Proof.
  intros Hguard. rewrite grantPermission_unfold.
  rewrite (guard_passes permission allow) by done. by split.
Qed.

Lemma passed_denial_resolves (st : Service) (permission : PermissionRequest) :
  state permission = deny ∧ accountAddress permission ≠ "" →
  (∃ pushes,
     trace (denyOrRevokePermission permission st)
     = resolve_pending st (origin permission) (ResolvedByDeny "Time to move on")
       ++ pushes
     ∧ resolved pushes = [])
  ∧ pendingPermissionsRequests (final (denyOrRevokePermission permission st))
    = delete (origin permission) (pendingPermissionsRequests st).
Proof.
  intros Hguard. rewrite denyOrRevokePermission_unfold.
  rewrite (guard_passes permission deny) by done.
  split; [| reflexivity].
  eexists. split; [reflexivity |]. apply resolved_address_pushes.
Qed.

Lemma nothing_pending_nothing_called (st : Service)
    (permission : PermissionRequest) (decision : PermissionRequest → M unit) :
  In decision [grantPermission; denyOrRevokePermission] →
  pendingPermissionsRequests st !! origin permission = None →
  resolved (trace (decision permission st)) = [].
Proof.
  intros Hdecision Hnone.
  destruct (decision_resolves_pending st permission decision Hdecision)
    as [-> | [-> _]]; [done | by rewrite Hnone].
Qed.

(** C7: two [eth_requestAccounts] messages from one origin without a
    grant, handled one after the other before the user decides, both
    park; the second registration overwrites the first in the table,
    which ends up with the second continuation alone under the origin.
    A user decision for the origin whose guard passes then calls the
    second continuation and no other ([grantPermission] does nothing
    else; [denyOrRevokePermission] also broadcasts) and removes the entry,
    after which no further decision for the origin calls anything: the
    first continuation is never called.  A decision whose guard fails
    changes nothing. *)
Theorem one_pending_continuation_per_origin (st : Service)
    (port1 port2 : Port) (event1 event2 : PortRequestEvent)
    (url1 url2 : string) (popup : Window) :
  sender_url port1 = Some url1 →
  sender_url port2 = Some url2 →
  URL_origin url1 = URL_origin url2 →
  db st !! (URL_origin url1, selectedAccount st) = None →
  isTallyConfigPayload (request event1) = false →
  isTallyConfigPayload (request event2) = false →
  method (request event1) = "eth_requestAccounts" →
  method (request event2) = "eth_requestAccounts" →
  showExtensionPopup dappPermission = Return popup →
  let o := URL_origin url1 in
  let first := onMessageListener port1 event1 st in
  let second := onMessageListener port2 event2 (final first) in
  let r1 := nextPromise st in
  let r2 := S (nextPromise st) in
  completion first = Return (AwaitingUserAction r1)
  ∧ pendingPermissionsRequests (final first)
    = <[o := r1]> (pendingPermissionsRequests st)
  ∧ completion second = Return (AwaitingUserAction r2)
  ∧ pendingPermissionsRequests (final second)
    = <[o := r2]> (pendingPermissionsRequests st)
  ∧ r1 ≠ r2
  ∧ ∀ permission,
      origin permission = o →
      (state permission = allow ∧ accountAddress permission ≠ "" →
         let third := grantPermission permission (final second) in
         trace third = [Resolve r2 (ResolvedByGrant permission)]
         ∧ pendingPermissionsRequests (final third) !! o = None
         ∧ ∀ decision' permission',
             In decision' [grantPermission; denyOrRevokePermission] →
             origin permission' = o →
             resolved (trace (decision' permission' (final third))) = [])
      ∧ (state permission = deny ∧ accountAddress permission ≠ "" →
         let third := denyOrRevokePermission permission (final second) in
         resolved (trace third) = [r2]
         ∧ In (Resolve r2 (ResolvedByDeny "Time to move on")) (trace third)
         ∧ pendingPermissionsRequests (final third) !! o = None
         ∧ ∀ decision' permission',
             In decision' [grantPermission; denyOrRevokePermission] →
             origin permission' = o →
             resolved (trace (decision' permission' (final third))) = [])
      ∧ (¬ (state permission = allow ∧ accountAddress permission ≠ "") →
         grantPermission permission (final second)
         = (Return tt, final second, []))
      ∧ (¬ (state permission = deny ∧ accountAddress permission ≠ "") →
         denyOrRevokePermission permission (final second)
         = (Return tt, final second, [])).
Proof.
  intros Hurl1 Hurl2 Horigin Hnone Hconfig1 Hconfig2 Hmethod1 Hmethod2 Hpopup
    o first second r1 r2.
  assert (first = (Return (AwaitingUserAction r1),
                   set_pending <[o := r1]> (bump_nextPromise st),
                   [EmitRequestPermission (permission_request_of st port1 url1);
                    ShowExtensionPopup dappPermission])) as Hfirst.
  { subst first.
    rewrite (onMessageListener_without_grant st port1 event1 url1);
      [| done | done | done | by rewrite Hmethod1].
    by rewrite Hmethod1, Hpopup. }
  assert (second = (Return (AwaitingUserAction r2),
                    set_pending <[o := r2]>
                      (bump_nextPromise (final first)),
                    [EmitRequestPermission
                       (permission_request_of (final first) port2 url2);
                     ShowExtensionPopup dappPermission])) as Hsecond.
  { subst second.
    rewrite (onMessageListener_without_grant (final first) port2 event2 url2);
      [| done | by rewrite Hfirst, <- Horigin | done | by rewrite Hmethod2].
    rewrite Hmethod2, Hpopup, <- Horigin. by rewrite Hfirst. }
  assert (pendingPermissionsRequests (final second)
          = <[o := r2]> (pendingPermissionsRequests st)) as Htable.
  { rewrite Hsecond, Hfirst. simpl. apply insert_insert_eq. }
  split; [by rewrite Hfirst |].
  split; [by rewrite Hfirst |].
  split; [by rewrite Hsecond |].
  split; [done |].
  split; [subst r1 r2; lia |].
  intros permission Hpermission.
  split; [| split; [| split]].
  - intros Hguard third.
    destruct (passed_grant_resolves (final second) permission Hguard)
      as [Htrace Hremoved].
    fold third in Htrace, Hremoved.
    assert (pendingPermissionsRequests (final third) !! o = None) as Hgone.
    { rewrite Hremoved, Hpermission. apply lookup_delete_eq. }
    split.
    { rewrite Htrace. unfold resolve_pending.
      by rewrite Hpermission, Htable, lookup_insert_eq. }
    split; [done |].
    intros decision' permission' Hdecision' Hpermission'.
    apply nothing_pending_nothing_called; [done | by rewrite Hpermission'].
  - intros Hguard third.
    destruct (passed_denial_resolves (final second) permission Hguard)
      as [(pushes & Htrace & Hpushes) Hremoved].
    fold third in Htrace, Hremoved.
    assert (resolve_pending (final second) (origin permission)
              (ResolvedByDeny "Time to move on")
            = [Resolve r2 (ResolvedByDeny "Time to move on")]) as Hcalled.
    { unfold resolve_pending.
      by rewrite Hpermission, Htable, lookup_insert_eq. }
    assert (pendingPermissionsRequests (final third) !! o = None) as Hgone.
    { rewrite Hremoved, Hpermission. apply lookup_delete_eq. }
    rewrite Hcalled in Htrace.
    split.
    { rewrite Htrace. unfold resolved in *. rewrite omap_app, Hpushes.
      reflexivity. }
    split; [rewrite Htrace; by left |].
    split; [done |].
    intros decision' permission' Hdecision' Hpermission'.
    apply nothing_pending_nothing_called; [done | by rewrite Hpermission'].
  - intros Hfails. rewrite grantPermission_unfold.
    by rewrite (guard_fails permission allow).
  - intros Hfails. rewrite denyOrRevokePermission_unfold.
    by rewrite (guard_fails permission deny).
Qed.

(** ** Envelope ids *)

Lemma config_change_loop (st : Service) (newDefaultWalletValue : bool)
    (ports : list Port) :
  fold_right
    (fun p rest =>
       postMessage p
         {| response_id := tallyHo;
            result := VObj [("method", VStr "tally_getConfig");
                            ("defaultWallet", VBool newDefaultWalletValue)] |} ;;;
       rest)
    (ret tt) ports st
  = (Return tt, st,
     map (fun p =>
            PostMessage p
              {| response_id := tallyHo;
                 result := VObj [("method", VStr "tally_getConfig");
                                 ("defaultWallet",
                                  VBool newDefaultWalletValue)] |}) ports).
Proof.
  induction ports as [| p ports IH]; [reflexivity |].
  simpl. unfold bind at 1. unfold postMessage at 1, perform at 1.
  rewrite IH. reflexivity.
Qed.

Lemma notifyContentScriptAboutConfigChange_pushes (st : Service)
    (newDefaultWalletValue : bool) :
  notifyContentScriptAboutConfigChange newDefaultWalletValue st
  = (Return tt, st,
     map (fun p =>
            PostMessage p
              {| response_id := tallyHo;
                 result := VObj [("method", VStr "tally_getConfig");
                                 ("defaultWallet",
                                  VBool newDefaultWalletValue)] |})
       (openPorts st)).
Proof.
  unfold notifyContentScriptAboutConfigChange, bind at 1, gets.
  rewrite config_change_loop. reflexivity.
Qed.

(** C9, amended: a reply to a request that is not the internal
    wallet-config query, posted at once or after the consent wait, goes
    to the request's port with the request's id; the reply to the
    wallet-config query carries the fixed id ["tallyHo"], as does every
    push of the config-change and account-change broadcasts. *)
Theorem replies_echo_the_id_except_config (st : Service) (port : Port)
    (event : PortRequestEvent) :
  (isTallyConfigPayload (request event) = false →
   ∀ p response,
     In (p, response) (posted (trace (onMessageListener port event st)))
     ∨ In (p, response)
          (posted (trace (onMessageListener_resumed port event st))) →
     p = port ∧ response_id response = request_id event)
  ∧ (isTallyConfigPayload (request event) = true →
     ∀ url, sender_url port = Some url →
     onMessageListener port event st
     = (Return Finished, st,
        [PostMessage port
           {| response_id := tallyHo;
              result := VObj [("method", VStr (method (request event)));
                              ("defaultWallet", VBool (defaultWallet st))] |}]))
  ∧ (∀ newDefaultWalletValue p response,
     In (p, response)
       (posted (trace (notifyContentScriptAboutConfigChange
                         newDefaultWalletValue st))) →
     response_id response = tallyHo)
  ∧ (∀ newAddress p response,
     In (p, response)
       (posted (trace (notifyContentScriptsAboutAddressChange newAddress st))) →
     response_id response = tallyHo).
Proof.
  split; [| split; [| split]].
  - intros Hconfig p response [Hin | Hin]; revert Hin.
    + unfold onMessageListener.
      destruct (sender_url port) as [url |]; [| by simpl].
      unfold bind at 1. rewrite checkPermission_lookup, Hconfig.
      destruct (String.eqb (method (request event)) "tally_setClaimReferrer").
      { destruct (index (params (request event)) 0); try (by simpl).
        destruct (negb _); simpl; [done |].
        intros [[= <- <-] | []]. done. }
      destruct (db st !! (URL_origin url, selectedAccount st)) as [grant |].
      { destruct (routing_never_throws st grant (method (request event))
                    (params (request event))) as (routed & Hrouted).
        rewrite (posted_after_routing _ _ _ _ port (request_id event) _ Hrouted).
        intros [[= <- <-] | []]. done. }
      destruct (String.eqb (method (request event)) "eth_requestAccounts").
      * unfold bind at 1. unfold gets at 1. cbv beta iota zeta.
        unfold bind at 1. rewrite requestPermission_registers.
        destruct (showExtensionPopup dappPermission); by simpl.
      * simpl. intros [[= <- <-] | []]. done.
    + unfold onMessageListener_resumed.
      destruct (sender_url port) as [url |]; [| by simpl].
      unfold bind at 1. rewrite checkPermission_lookup.
      destruct (db st !! (URL_origin url, selectedAccount st)) as [grant |].
      * destruct (routing_never_throws st grant "eth_accounts"
                    (params (request event))) as (routed & Hrouted).
        rewrite (posted_after_routing _ _ _ _ port (request_id event) _ Hrouted).
        intros [[= <- <-] | []]. done.
      * simpl. intros [[= <- <-] | []]. done.
  - intros Hconfig url Hurl. unfold onMessageListener. rewrite Hurl.
    unfold bind at 1. rewrite checkPermission_lookup, Hconfig. reflexivity.
  - intros newDefaultWalletValue p response.
    rewrite notifyContentScriptAboutConfigChange_pushes. simpl.
    induction (openPorts st) as [| q ports IH]; simpl; [done |].
    intros [[= <- <-] | Hin]; [done | by apply IH].
  - intros newAddress p response.
    rewrite notifyContentScriptsAboutAddressChange_pushes. simpl.
    induction (openPorts st) as [| q ports IH]; simpl; [done |].
    unfold posted in *. rewrite omap_app, in_app_iff.
    intros [Hin | Hin]; [| by apply IH].
    unfold address_push in Hin. destruct (sender_url q); simpl in Hin; [| done].
    destruct Hin as [[= <- <-] | []]. done.
Qed.

(** ** The router, path by path *)

Lemma routeContentScriptRPCRequest_keeps_state (st : Service)
    (grant : PermissionRequest) (method : string) (params : list Value) :
  final (routeContentScriptRPCRequest grant method params st) = st.
Proof.
  unfold routeContentScriptRPCRequest, try_catch,
    checkPermissionSignTypedData, checkPermissionSignTransaction.
  repeat match goal with
  | |- context [if one_of ?m ?l then _ else _] => destruct (one_of m l)
  end;
  unfold bind, call_showExtensionPopup, perform, ret, await; simpl;
  try reflexivity;
  try match goal with
      | |- context [checkPermissionSign ?a ?g] =>
          destruct (checkPermissionSign a g) as [[] | ?]; simpl;
          try reflexivity
      end;
  try (rewrite routeSafeRequest_settles;
       match goal with
       | |- context [showExtensionPopup ?page] =>
           destruct (showExtensionPopup page) as [popup | ?]; simpl;
           try reflexivity; destruct (window_id popup)
       end);
  destruct (routeSafeRPCRequest method params); reflexivity.
Qed.

(** The branch of the [switch] a signing-family method takes. *)
Lemma signing_branch (st : Service) (grant : PermissionRequest)
    (method : string) (params : list Value) :
  In method signing_family →
  routeContentScriptRPCRequest grant method params st
  = try_catch
      (await (checkPermissionSign (signer_parameter method params) grant) ;;;
       let* popupPromise := call_showExtensionPopup (popup_page method) in
       routeSafeRequest method params popupPromise)
      (fun error =>
         perform (LoggerLog "error processing request" error) ;;;
         ret (VError userRejectedRequest)) st.
Proof.
  intros Hfamily. simpl in Hfamily.
  repeat (destruct Hfamily as [<- | Hfamily]); try contradiction; reflexivity.
Qed.

Lemma passed_check_runs (st : Service) (page : AllowedQueryParamPage)
    (method : string) (params : list Value) :
  try_catch
    (await (Return tt) ;;;
     let* popupPromise := call_showExtensionPopup page in
     routeSafeRequest method params popupPromise)
    (fun error =>
       perform (LoggerLog "error processing request" error) ;;;
       ret (VError userRejectedRequest)) st
  = match showExtensionPopup page with
    | Throw e =>
        (Return (VError userRejectedRequest), st,
         [ShowExtensionPopup page; RouteSafeRPCRequest method params;
          LoggerLog "error processing request" e])
    | Return popup =>
        match routeSafeRPCRequest method params with
        | Return v =>
            (Return v, st,
             [ShowExtensionPopup page; RouteSafeRPCRequest method params]
             ++ close_popup popup)
        | Throw e =>
            (Return (VError userRejectedRequest), st,
             [ShowExtensionPopup page; RouteSafeRPCRequest method params]
             ++ close_popup popup
             ++ [LoggerLog "error processing request" e])
        end
    end.
Proof.
  unfold try_catch, bind at 1 2. simpl.
  rewrite routeSafeRequest_settles. unfold close_popup.
  destruct (showExtensionPopup page) as [popup | e]; [| reflexivity].
  destruct (routeSafeRPCRequest method params);
    destruct (window_id popup); reflexivity.
Qed.

Lemma matching_signer_passes (grant : PermissionRequest) (method : string)
    (params : list Value) (signer : string) :
  signer_parameter method params = VStr signer →
  sameEVMAddress signer (accountAddress grant) = true →
  checkPermissionSign (signer_parameter method params) grant = Return tt.
Proof.
  intros -> Hsame. unfold checkPermissionSign. by rewrite Hsame.
Qed.

(** X1: a signing-family call whose signer parameter matches the grant
    opens the popup of its family, dispatches the call once with its own
    method and parameters and then closes the popup, on the success path
    and on the failure path alike; the result is the dispatch's value, or
    the [userRejectedRequest] error object when the dispatch failed. *)
Theorem popup_is_closed_on_both_paths (st : Service)
    (grant : PermissionRequest) (method : string) (params : list Value)
    (signer : string) (popup : Window) :
  In method signing_family →
  signer_parameter method params = VStr signer →
  sameEVMAddress signer (accountAddress grant) = true →
  showExtensionPopup (popup_page method) = Return popup →
  routeContentScriptRPCRequest grant method params st
  = match routeSafeRPCRequest method params with
    | Return v =>
        (Return v, st,
         [ShowExtensionPopup (popup_page method);
          RouteSafeRPCRequest method params] ++ close_popup popup)
    | Throw e =>
        (Return (VError userRejectedRequest), st,
         [ShowExtensionPopup (popup_page method);
          RouteSafeRPCRequest method params]
         ++ close_popup popup ++ [LoggerLog "error processing request" e])
    end.
Proof.
  intros Hfamily Hsigner Hsame Hpopup.
  rewrite signing_branch by done.
  rewrite (matching_signer_passes grant method params signer) by done.
  rewrite passed_check_runs, Hpopup. reflexivity.
Qed.

(** X2: when the popup of a signing-family call fails to open, the call
    has been dispatched all the same, and whatever the dispatch did the
    result is the [userRejectedRequest] error object: the failure of the
    cleanup replaces the outcome of the dispatch. *)
Theorem failed_popup_overrides_the_dispatch (st : Service)
    (grant : PermissionRequest) (method : string) (params : list Value)
    (signer : string) (e : Thrown) :
  In method signing_family →
  signer_parameter method params = VStr signer →
  sameEVMAddress signer (accountAddress grant) = true →
  showExtensionPopup (popup_page method) = Throw e →
  routeContentScriptRPCRequest grant method params st
  = (Return (VError userRejectedRequest), st,
     [ShowExtensionPopup (popup_page method);
      RouteSafeRPCRequest method params;
      LoggerLog "error processing request" e]).
Proof.
  intros Hfamily Hsigner Hsame Hpopup.
  rewrite signing_branch by done.
  rewrite (matching_signer_passes grant method params signer) by done.
  rewrite passed_check_runs, Hpopup. reflexivity.
Qed.

(** X3: a method outside the account and signing families is forwarded
    as it is, once, without any popup and without any check of its
    parameters against the grant; the result is the dispatch's value, or
    the [userRejectedRequest] error object when the dispatch failed. *)
Theorem other_methods_are_forwarded_without_popup (st : Service)
    (grant : PermissionRequest) (method : string) (params : list Value) :
  ¬ In method account_methods →
  ¬ In method signing_family →
  routeContentScriptRPCRequest grant method params st
  = match routeSafeRPCRequest method params with
    | Return v => (Return v, st, [RouteSafeRPCRequest method params])
    | Throw e =>
        (Return (VError userRejectedRequest), st,
         [RouteSafeRPCRequest method params;
          LoggerLog "error processing request" e])
    end.
Proof.
  intros Haccounts Hsigning. unfold signing_family in Hsigning.
  rewrite !in_app_iff in Hsigning.
  assert (¬ In method typed_data_methods) as Htyped
    by (intros Hin; apply Hsigning; by left).
  assert (¬ In method sign_methods) as Hsign
    by (intros Hin; apply Hsigning; right; by left).
  assert (¬ In method transaction_methods) as Htransaction
    by (intros Hin; apply Hsigning; right; by right).
  unfold routeContentScriptRPCRequest.
  rewrite !one_of_false by assumption.
  unfold try_catch, bind, perform, await.
  destruct (routeSafeRPCRequest method params); reflexivity.
Qed.

(** ** The gateway, message by message *)

(** A dApp message from an origin with a grant: the router's trace, then
    the reply. *)
Lemma onMessageListener_routes (st : Service) (port : Port)
    (event : PortRequestEvent) (url : string) (grant : PermissionRequest)
    (routed : Value) (t : list Effect) :
  sender_url port = Some url →
  db st !! (URL_origin url, selectedAccount st) = Some grant →
  isTallyConfigPayload (request event) = false →
  method (request event) ≠ "tally_setClaimReferrer" →
  routeContentScriptRPCRequest grant (method (request event))
    (params (request event)) st = (Return routed, st, t) →
  onMessageListener port event st
  = (Return Finished, st,
     t ++ [PostMessage port {| response_id := request_id event;
                               result := routed |}]).
Proof.
  intros Hurl Hgrant Hconfig Hreferrer Hrouted.
  unfold onMessageListener. rewrite Hurl.
  unfold bind at 1. rewrite checkPermission_lookup, Hgrant, Hconfig.
  apply String.eqb_neq in Hreferrer. rewrite Hreferrer.
  unfold bind at 1. rewrite Hrouted. reflexivity.
Qed.

Lemma onMessageListener_resumed_runs (st : Service) (port : Port)
    (event : PortRequestEvent) (url : string) :
  sender_url port = Some url →
  onMessageListener_resumed port event st
  = (Return Finished, st,
     [PostMessage port
        {| response_id := request_id event;
           result :=
             match db st !! (URL_origin url, selectedAccount st) with
             | Some permission => VArr [VStr (accountAddress permission)]
             | None => VError userRejectedRequest
             end |}]).
Proof.
  intros Hurl. unfold onMessageListener_resumed. rewrite Hurl.
  unfold bind at 1. rewrite checkPermission_lookup.
  by destruct (db st !! (URL_origin url, selectedAccount st)).
Qed.

(** X4: a [tally_setClaimReferrer] message from the allowed website with
    a string as first parameter emits the [setClaimReferrer] event with
    that string and is answered [null] under the request's id, whether or
    not the website holds a grant; the state is untouched. *)
Theorem claim_referrer_is_accepted_from_the_website (st : Service)
    (port : Port) (event : PortRequestEvent) (url referrer : string) :
  sender_url port = Some url →
  isTallyConfigPayload (request event) = false →
  method (request event) = "tally_setClaimReferrer" →
  URL_origin url = WEBSITE_ORIGIN →
  index (params (request event)) 0 = VStr referrer →
  onMessageListener port event st
  = (Return Finished, st,
     [EmitSetClaimReferrer referrer;
      PostMessage port {| response_id := request_id event;
                          result := VNull |}]).
Proof.
  intros Hurl Hconfig Hmethod Horigin Hreferrer.
  unfold onMessageListener. rewrite Hurl.
  unfold bind at 1. rewrite checkPermission_lookup, Hconfig, Hmethod.
  simpl String.eqb. cbv iota.
  rewrite Hreferrer, Horigin, (String.eqb_refl WEBSITE_ORIGIN).
  reflexivity.
Qed.

(** X5: the consent flow, granted.  [eth_requestAccounts] from an origin
    without a grant parks without replying; [grantPermission] for that
    origin and the selected account calls the parked continuation; the
    resumed handler then answers the request, under its id, with the list
    holding the granted account, and the table keeps nothing for the
    origin. *)
Theorem consent_flow_granted (st : Service) (port : Port)
    (event : PortRequestEvent) (url : string) (popup : Window)
    (permission : PermissionRequest) :
  sender_url port = Some url →
  db st !! (URL_origin url, selectedAccount st) = None →
  isTallyConfigPayload (request event) = false →
  method (request event) = "eth_requestAccounts" →
  showExtensionPopup dappPermission = Return popup →
  origin permission = URL_origin url →
  accountAddress permission = selectedAccount st →
  state permission = allow →
  accountAddress permission ≠ "" →
  let parked := onMessageListener port event st in
  let granted := grantPermission permission (final parked) in
  let resumed := onMessageListener_resumed port event (final granted) in
  completion parked = Return (AwaitingUserAction (nextPromise st))
  ∧ posted (trace parked) = []
  ∧ trace granted = [Resolve (nextPromise st) (ResolvedByGrant permission)]
  ∧ trace resumed
    = [PostMessage port
         {| response_id := request_id event;
            result := VArr [VStr (selectedAccount st)] |}]
  ∧ pendingPermissionsRequests (final resumed) !! URL_origin url = None.
Proof.
  intros Hurl Hnone Hconfig Hmethod Hpopup Horigin Haccount Hallow Hfull
    parked granted resumed.
  assert (parked = (Return (AwaitingUserAction (nextPromise st)),
                    set_pending <[URL_origin url := nextPromise st]>
                      (bump_nextPromise st),
                    [EmitRequestPermission (permission_request_of st port url);
                     ShowExtensionPopup dappPermission])) as Hparked.
  { subst parked.
    rewrite (onMessageListener_without_grant st port event url);
      [| done | done | done | by rewrite Hmethod].
    by rewrite Hmethod, Hpopup. }
  assert (granted
          = (Return tt,
             set_pending (delete (origin permission))
               (set_db (db_setPermission permission) (final parked)),
             resolve_pending (final parked) (origin permission)
               (ResolvedByGrant permission))) as Hgranted.
  { subst granted. rewrite grantPermission_unfold.
    by rewrite (guard_passes permission allow). }
  assert (trace granted
          = [Resolve (nextPromise st) (ResolvedByGrant permission)])
    as Hresolved.
  { rewrite Hgranted. unfold resolve_pending. rewrite Hparked, Horigin.
    simpl. by rewrite lookup_insert_eq. }
  assert (db (final granted) !! (URL_origin url, selectedAccount (final granted))
          = Some permission) as Hstored.
  { rewrite Hgranted, Hparked. simpl. unfold db_setPermission.
    rewrite Horigin, Haccount. apply lookup_insert_eq. }
  assert (resumed
          = (Return Finished, final granted,
             [PostMessage port
                {| response_id := request_id event;
                   result := VArr [VStr (accountAddress permission)] |}]))
    as Hresumed.
  { subst resumed.
    rewrite (onMessageListener_resumed_runs (final granted) port event url)
      by done.
    by rewrite Hstored. }
  split; [by rewrite Hparked |].
  split; [by rewrite Hparked |].
  split; [done |].
  split; [by rewrite Hresumed, Haccount |].
  rewrite Hresumed, Hgranted, Horigin. simpl. apply lookup_delete_eq.
Qed.

(** X6: the consent flow, denied.  After the same parking,
    [denyOrRevokePermission] for the origin calls the parked continuation
    and no other, and the resumed handler answers the request, under its
    id, with the [userRejectedRequest] error object. *)
Theorem consent_flow_denied (st : Service) (port : Port)
    (event : PortRequestEvent) (url : string) (popup : Window)
    (permission : PermissionRequest) :
  sender_url port = Some url →
  db st !! (URL_origin url, selectedAccount st) = None →
  isTallyConfigPayload (request event) = false →
  method (request event) = "eth_requestAccounts" →
  showExtensionPopup dappPermission = Return popup →
  origin permission = URL_origin url →
  state permission = deny →
  accountAddress permission ≠ "" →
  let parked := onMessageListener port event st in
  let denied := denyOrRevokePermission permission (final parked) in
  let resumed := onMessageListener_resumed port event (final denied) in
  completion parked = Return (AwaitingUserAction (nextPromise st))
  ∧ resolved (trace denied) = [nextPromise st]
  ∧ trace resumed
    = [PostMessage port
         {| response_id := request_id event;
            result := VError userRejectedRequest |}]
  ∧ pendingPermissionsRequests (final resumed) !! URL_origin url = None.
Proof.
  intros Hurl Hnone Hconfig Hmethod Hpopup Horigin Hdeny Hfull
    parked denied resumed.
  assert (parked = (Return (AwaitingUserAction (nextPromise st)),
                    set_pending <[URL_origin url := nextPromise st]>
                      (bump_nextPromise st),
                    [EmitRequestPermission (permission_request_of st port url);
                     ShowExtensionPopup dappPermission])) as Hparked.
  { subst parked.
    rewrite (onMessageListener_without_grant st port event url);
      [| done | done | done | by rewrite Hmethod].
    by rewrite Hmethod, Hpopup. }
  assert (final denied
          = set_pending (delete (origin permission))
              (set_db (db_deletePermission (origin permission)
                         (selectedAccount (final parked))) (final parked))
          ∧ resolved (trace denied) = [nextPromise st]) as [Hfinal Hresolved].
  { subst denied. rewrite denyOrRevokePermission_unfold.
    rewrite (guard_passes permission deny) by done.
    split; [reflexivity |].
    cbn zeta. unfold trace. cbn [snd].
    unfold resolved. rewrite omap_app.
    fold (resolved (resolve_pending (final parked) (origin permission)
                      (ResolvedByDeny "Time to move on"))).
    rewrite resolved_resolve_pending.
    match goal with
    | |- _ ++ omap _ (flat_map (address_push ?s ?a) ?ports) = _ =>
        pose proof (resolved_address_pushes s a ports) as Hnone';
        unfold resolved in Hnone'; rewrite Hnone'
    end.
    rewrite Hparked, Horigin. simpl. by rewrite lookup_insert_eq. }
  assert (db (final denied) !! (URL_origin url, selectedAccount (final denied))
          = None) as Hgone.
  { rewrite Hfinal, Hparked, Horigin. simpl. apply lookup_delete_eq. }
  assert (resumed
          = (Return Finished, final denied,
             [PostMessage port
                {| response_id := request_id event;
                   result := VError userRejectedRequest |}])) as Hresumed.
  { subst resumed.
    rewrite (onMessageListener_resumed_runs (final denied) port event url)
      by done.
    by rewrite Hgone. }
  split; [by rewrite Hparked |].
  split; [done |].
  split; [by rewrite Hresumed |].
  rewrite Hresumed. simpl. rewrite Hfinal, Horigin. simpl.
  apply lookup_delete_eq.
Qed.

(** X7: when the consent popup fails to open, [eth_requestAccounts] from
    an origin without a grant ends with that failure: the permission
    request has been emitted, but no continuation is registered, nothing
    is posted and the state is as before. *)
Theorem consent_request_fails_with_its_popup (st : Service) (port : Port)
    (event : PortRequestEvent) (url : string) (e : Thrown) :
  sender_url port = Some url →
  db st !! (URL_origin url, selectedAccount st) = None →
  isTallyConfigPayload (request event) = false →
  method (request event) = "eth_requestAccounts" →
  showExtensionPopup dappPermission = Throw e →
  onMessageListener port event st
  = (Throw e, st,
     [EmitRequestPermission (permission_request_of st port url);
      ShowExtensionPopup dappPermission]).
Proof.
  intros Hurl Hnone Hconfig Hmethod Hpopup.
  rewrite (onMessageListener_without_grant st port event url);
    [| done | done | done | by rewrite Hmethod].
  by rewrite Hmethod, Hpopup.
Qed.

(** Where a message leaves the state, and what it has posted by then. *)
Lemma onMessageListener_outcomes (st : Service) (port : Port)
    (event : PortRequestEvent) :
  (completion (onMessageListener port event st) = Return Finished
   ∧ final (onMessageListener port event st) = st
   ∧ (List.length (posted (trace (onMessageListener port event st))) ≤ 1)%nat)
  ∨ (∃ e, completion (onMessageListener port event st) = Throw e
          ∧ final (onMessageListener port event st) = st
          ∧ posted (trace (onMessageListener port event st)) = [])
  ∨ (∃ url,
       completion (onMessageListener port event st)
       = Return (AwaitingUserAction (nextPromise st))
       ∧ final (onMessageListener port event st)
         = set_pending <[URL_origin url := nextPromise st]>
             (bump_nextPromise st)
       ∧ posted (trace (onMessageListener port event st)) = []).
Proof.
  remember (onMessageListener port event st) as r eqn:Hr.
  unfold onMessageListener in Hr.
  destruct (sender_url port) as [url |] eqn:Hurl;
    [| subst r; left; simpl; repeat split; lia].
  unfold bind at 1 in Hr. rewrite checkPermission_lookup in Hr.
  destruct (isTallyConfigPayload (request event));
    [subst r; left; simpl; repeat split; lia |].
  destruct (String.eqb (method (request event)) "tally_setClaimReferrer").
  { destruct (index (params (request event)) 0);
      try (subst r; left; simpl; repeat split; lia).
    destruct (negb _); subst r; left; simpl; repeat split; lia. }
  destruct (db st !! (URL_origin url, selectedAccount st)) as [grant |].
  { left.
    destruct (routing_never_throws st grant (method (request event))
                (params (request event))) as (routed & Hrouted).
    pose proof (posted_after_routing st grant (method (request event))
                  (params (request event)) port (request_id event) routed
                  Hrouted) as Hposted.
    rewrite <- Hr in Hposted. rewrite Hposted.
    pose proof (routeContentScriptRPCRequest_keeps_state st grant
                  (method (request event)) (params (request event))) as Hkept.
    unfold bind at 1 in Hr.
    destruct (routeContentScriptRPCRequest grant (method (request event))
                (params (request event)) st) as [[[v | e] s1] t1];
      [| discriminate].
    unfold final, completion in Hkept, Hrouted. simpl in Hkept, Hrouted.
    subst s1 r. simpl. repeat split; lia. }
  destruct (String.eqb (method (request event)) "eth_requestAccounts");
    [| subst r; left; simpl; repeat split; lia].
  unfold bind at 1 in Hr. unfold gets at 1 in Hr. cbv beta iota zeta in Hr.
  unfold bind at 1 in Hr. rewrite requestPermission_registers in Hr.
  destruct (showExtensionPopup dappPermission) as [popup | e]; subst r.
  - right. right. exists url. by simpl.
  - right. left. exists e. by simpl.
Qed.

(** X8: handling a message never writes a grant.  Whatever the message,
    the store, the open ports and the preferences are as before; the table
    of continuations changes only when the handler parks; and the resumed
    handler changes nothing at all. *)
Theorem message_handling_keeps_the_store (st : Service) (port : Port)
    (event : PortRequestEvent) :
  db (final (onMessageListener port event st)) = db st
  ∧ openPorts (final (onMessageListener port event st)) = openPorts st
  ∧ selectedAccount (final (onMessageListener port event st))
    = selectedAccount st
  ∧ defaultWallet (final (onMessageListener port event st)) = defaultWallet st
  ∧ (final (onMessageListener port event st) = st
     ∨ ∃ blockUntilUserAction,
         completion (onMessageListener port event st)
         = Return (AwaitingUserAction blockUntilUserAction))
  ∧ final (onMessageListener_resumed port event st) = st.
Proof.
  assert (final (onMessageListener_resumed port event st) = st) as Hresumed.
  { unfold onMessageListener_resumed.
    destruct (sender_url port) as [url |] eqn:Hurl; [| reflexivity].
    unfold bind at 1. rewrite checkPermission_lookup.
    by destruct (db st !! (URL_origin url, selectedAccount st)). }
  destruct (onMessageListener_outcomes st port event)
    as [(_ & -> & _) | [(e & _ & -> & _) | (url & Hparked & -> & _)]];
    repeat split; try done; try (by left).
  right. by eexists.
Qed.

(** X9: a message gets at most one reply, and none while its handler is
    parked; the resumed handler of a port with a sender url posts exactly
    one. *)
Theorem at_most_one_reply (st : Service) (port : Port)
    (event : PortRequestEvent) :
  (List.length (posted (trace (onMessageListener port event st))) ≤ 1)%nat
  ∧ (∀ blockUntilUserAction,
       completion (onMessageListener port event st)
       = Return (AwaitingUserAction blockUntilUserAction) →
       posted (trace (onMessageListener port event st)) = [])
  ∧ (∀ url, sender_url port = Some url →
       List.length (posted (trace (onMessageListener_resumed port event st)))
       = 1%nat).
Proof.
  split; [| split].
  - destruct (onMessageListener_outcomes st port event)
      as [(_ & _ & Hle) | [(e & _ & _ & ->) | (url & _ & _ & ->)]];
      simpl; lia.
  - intros n Hparked.
    destruct (onMessageListener_outcomes st port event)
      as [(Hdone & _) | [(e & Hthrown & _) | (url & _ & _ & Hnone)]];
      congruence.
  - intros url Hurl.
    by rewrite (onMessageListener_resumed_runs st port event url).
Qed.

(** ** Grants and revocations, end to end *)

(** X10: once [grantPermission] has recorded a grant for the selected
    account, [eth_accounts] and [eth_requestAccounts] from the granted
    origin are answered at once with the list holding that account: no
    consent request, no popup, no dispatch. *)
Theorem granted_origin_reads_its_account (st : Service)
    (permission : PermissionRequest) (port : Port) (event : PortRequestEvent)
    (url : string) :
  state permission = allow →
  accountAddress permission ≠ "" →
  accountAddress permission = selectedAccount st →
  sender_url port = Some url →
  URL_origin url = origin permission →
  isTallyConfigPayload (request event) = false →
  method (request event) = "eth_accounts"
    ∨ method (request event) = "eth_requestAccounts" →
  let st' := final (grantPermission permission st) in
  onMessageListener port event st'
  = (Return Finished, st',
     [PostMessage port
        {| response_id := request_id event;
           result := VArr [VStr (accountAddress permission)] |}]).
Proof.
  intros Hallow Hfull Hselected Hurl Horigin Hconfig Hmethod st'.
  assert (db st' !! (URL_origin url, selectedAccount st') = Some permission)
    as Hstored.
  { subst st'. rewrite grantPermission_unfold.
    rewrite (guard_passes permission allow) by done. simpl.
    unfold db_setPermission. rewrite Horigin, Hselected.
    apply lookup_insert_eq. }
  apply (onMessageListener_routes st' port event url permission
           (VArr [VStr (accountAddress permission)]) []); try done.
  - by destruct Hmethod as [-> | ->].
  - by destruct Hmethod as [-> | ->].
Qed.

(** X11: revoking undoes granting.  When an origin had no grant for the
    selected account, a grant for it followed by a revocation for the
    origin leaves the store exactly as it was, and the origin's next call
    is answered [unauthorized] again. *)
Theorem revocation_undoes_the_grant (st : Service)
    (granting revoking : PermissionRequest) (port : Port)
    (event : PortRequestEvent) (url : string) :
  db st !! (origin granting, selectedAccount st) = None →
  state granting = allow →
  accountAddress granting = selectedAccount st →
  accountAddress granting ≠ "" →
  state revoking = deny →
  accountAddress revoking ≠ "" →
  origin revoking = origin granting →
  sender_url port = Some url →
  URL_origin url = origin granting →
  isTallyConfigPayload (request event) = false →
  method (request event) = "eth_accounts" →
  let st' :=
    final (denyOrRevokePermission revoking
             (final (grantPermission granting st))) in
  db st' = db st
  ∧ onMessageListener port event st'
    = (Return Finished, st',
       [PostMessage port {| response_id := request_id event;
                            result := VError unauthorized |}]).
Proof.
  intros Hnone Hallow Hselected Hfull Hdeny Hfull' Hsame Hurl Horigin Hconfig
    Hmethod st'.
  assert (db st' = db st ∧ selectedAccount st' = selectedAccount st)
    as [Hdb Haccount].
  { subst st'. rewrite denyOrRevokePermission_unfold.
    rewrite (guard_passes revoking deny) by done.
    rewrite grantPermission_unfold.
    rewrite (guard_passes granting allow) by done.
    split; [| reflexivity]. simpl.
    unfold db_deletePermission, db_setPermission.
    rewrite Hsame, Hselected, delete_insert_eq. by apply delete_id. }
  split; [done |].
  rewrite (onMessageListener_without_grant st' port event url);
    [by rewrite Hmethod | done | | done | by rewrite Hmethod].
  by rewrite Hdb, Haccount, Horigin.
Qed.

(** X12: a revocation removes the grant of the permission's origin for
    the currently selected account, not for the account the permission
    names: when the two differ, the grant the permission names stays in
    the store. *)
Theorem revocation_targets_the_selected_account (st : Service)
    (permission : PermissionRequest) :
  state permission = deny →
  accountAddress permission ≠ "" →
  accountAddress permission ≠ selectedAccount st →
  let st' := final (denyOrRevokePermission permission st) in
  db st' !! (origin permission, selectedAccount st) = None
  ∧ db st' !! (origin permission, accountAddress permission)
    = db st !! (origin permission, accountAddress permission).
Proof.
  intros Hdeny Hfull Hother st'. subst st'.
  rewrite denyOrRevokePermission_unfold.
  rewrite (guard_passes permission deny) by done. simpl.
  unfold db_deletePermission. split; [apply lookup_delete_eq |].
  apply lookup_delete_ne. congruence.
Qed.

(** X13: a user decision concerns one origin only.  Either callback
    leaves the continuations parked for other origins in the table and
    calls none of them: whatever it calls is the continuation that was
    parked for the permission's own origin. *)
Theorem decisions_touch_one_origin (st : Service)
    (permission : PermissionRequest) (decision : PermissionRequest → M unit) :
  In decision [grantPermission; denyOrRevokePermission] →
  (∀ other, other ≠ origin permission →
     pendingPermissionsRequests (final (decision permission st)) !! other
     = pendingPermissionsRequests st !! other)
  ∧ (∀ resolve, In resolve (resolved (trace (decision permission st))) →
       pendingPermissionsRequests st !! origin permission = Some resolve).
Proof.
  intros Hdecision.
  destruct (decision_resolves_pending st permission decision Hdecision)
    as [-> | [Hresolved Hremoved]]; [by split |].
  split.
  - intros other Hother. rewrite Hremoved. by apply lookup_delete_ne.
  - intros resolve. rewrite Hresolved.
    destruct (pendingPermissionsRequests st !! origin permission);
      simpl; [| done].
    intros [-> | []]. reflexivity.
Qed.

(** ** Ports and broadcasts *)

Lemma posted_address_push (st : Service) (newAddress : option string)
    (port : Port) :
  posted (address_push st newAddress port) = []
  ∨ ∃ response, posted (address_push st newAddress port) = [(port, response)].
Proof.
  unfold address_push. destruct (sender_url port); [right | by left].
  by eexists.
Qed.

Lemma address_pushes_after_disconnect (st : Service)
    (newAddress : option string) (port : Port) (ports : list Port) :
  posted (flat_map (address_push st newAddress)
            (filter (fun openPort => port_ref openPort ≠ port_ref port) ports))
  = filter (not_addressed_to port)
      (posted (flat_map (address_push st newAddress) ports)).
Proof.
  induction ports as [| q ports IH]; [reflexivity |].
  simpl flat_map at 2. unfold posted at 2. rewrite omap_app.
  fold (posted (address_push st newAddress q)).
  fold (posted (flat_map (address_push st newAddress) ports)).
  rewrite filter_app, <- IH.
  destruct (decide (port_ref q ≠ port_ref port)) as [Hkept | Hgone].
  - rewrite filter_cons_True by done. simpl flat_map.
    unfold posted at 1. rewrite omap_app.
    fold (posted (address_push st newAddress q)). f_equal.
    destruct (posted_address_push st newAddress q) as [-> | [response ->]];
      [done |].
    by rewrite filter_cons_True.
  - rewrite filter_cons_False by done.
    destruct (posted_address_push st newAddress q) as [-> | [response ->]];
      [done |].
    by rewrite filter_cons_False.
Qed.

Lemma config_pushes_after_disconnect (response : PortResponseEvent)
    (port : Port) (ports : list Port) :
  posted (map (fun p => PostMessage p response)
            (filter (fun openPort => port_ref openPort ≠ port_ref port) ports))
  = filter (not_addressed_to port)
      (posted (map (fun p => PostMessage p response) ports)).
Proof.
  induction ports as [| q ports IH]; [reflexivity |].
  simpl map at 2. change (posted (PostMessage q response :: ?t))
    with ((q, response) :: posted t).
  destruct (decide (port_ref q ≠ port_ref port)) as [Hkept | Hgone].
  - rewrite !filter_cons_True by done. simpl. by rewrite <- IH.
  - by rewrite !filter_cons_False.
Qed.

(** X14: a port that has disconnected is out of both broadcasts.  What a
    broadcast posts after [onDisconnect] is what it would have posted
    before, in the same order, without the messages addressed to that
    port. *)
Theorem broadcasts_skip_a_disconnected_port (st : Service) (port : Port)
    (newDefaultWalletValue : bool) (newAddress : option string) :
  posted (trace (notifyContentScriptAboutConfigChange newDefaultWalletValue
                   (final (onDisconnect port st))))
  = filter (not_addressed_to port)
      (posted (trace (notifyContentScriptAboutConfigChange
                        newDefaultWalletValue st)))
  ∧ posted (trace (notifyContentScriptsAboutAddressChange newAddress
                     (final (onDisconnect port st))))
    = filter (not_addressed_to port)
        (posted (trace (notifyContentScriptsAboutAddressChange newAddress st))).
Proof.
  rewrite !notifyContentScriptAboutConfigChange_pushes,
    !notifyContentScriptsAboutAddressChange_pushes.
  split.
  - apply config_pushes_after_disconnect.
  - apply (address_pushes_after_disconnect st newAddress port (openPorts st)).
Qed.

Lemma filter_all_pass (ports : list Port) (port : Port) :
  Forall (fun openPort => port_ref openPort ≠ port_ref port) ports →
  filter (fun openPort => port_ref openPort ≠ port_ref port) ports = ports.
Proof.
  induction 1 as [| q ports Hq _ IH]; [reflexivity |].
  rewrite filter_cons_True by done. by rewrite IH.
Qed.

(** X15: connecting and then disconnecting a port that was not open
    brings the service back to the state it was in, whether or not the
    port was accepted. *)
Theorem connect_then_disconnect_restores (st : Service) (port : Port) :
  Forall (fun openPort => port_ref openPort ≠ port_ref port) (openPorts st) →
  final (onDisconnect port (final (onConnect port st))) = st.
Proof.
  intros Hfresh. unfold onConnect, onDisconnect.
  destruct (_ && _); unfold modify, ret, final, set_openPorts; simpl.
  - rewrite filter_app, filter_all_pass by done.
    rewrite filter_cons_False by (intros Hne; by apply Hne).
    rewrite filter_nil, app_nil_r. by destruct st.
  - rewrite filter_all_pass by done. by destruct st.
Qed.

(** X16: the config-change broadcast reaches every open port, once and in
    the order of [openPorts], with the new value under the fixed id,
    whatever the port's origin and whether or not it holds a grant; the
    state is untouched. *)
Theorem config_change_reaches_every_port (st : Service)
    (newDefaultWalletValue : bool) :
  final (notifyContentScriptAboutConfigChange newDefaultWalletValue st) = st
  ∧ posted (trace (notifyContentScriptAboutConfigChange
                     newDefaultWalletValue st))
    = map (fun port =>
             (port,
              {| response_id := tallyHo;
                 result := VObj [("method", VStr "tally_getConfig");
                                 ("defaultWallet",
                                  VBool newDefaultWalletValue)] |}))
        (openPorts st).
Proof.
  rewrite notifyContentScriptAboutConfigChange_pushes.
  split; [reflexivity |]. simpl.
  induction (openPorts st) as [| port ports IH]; [reflexivity |].
  simpl. by rewrite <- IH.
Qed.

End ProviderBridgeService.

(** ** The properties at concrete inputs *)

Lemma account_methods_answer_directly_witness :
  routeContentScriptRPCRequest example_showExtensionPopup
    example_routeSafeRPCRequest
    (example_grant "https://dapp.example" "0xabc") "eth_accounts" []
    (example_service [] [] "0xabc")
  = (Return (VArr [VStr "0xabc"]), example_service [] [] "0xabc", []).
Proof.
  apply (account_methods_answer_directly example_showExtensionPopup
           example_routeSafeRPCRequest (example_service [] [] "0xabc")
           (example_grant "https://dapp.example" "0xabc") "eth_accounts" []).
  left; reflexivity.
Defined.

Lemma unauthorized_without_grant_witness :
  onMessageListener example_isTallyConfigPayload example_WEBSITE_ORIGIN
    example_URL_origin example_browser_tabs_get example_showExtensionPopup
    example_routeSafeRPCRequest
    (example_port 1 "https://dapp.example")
    (example_event 5 "eth_chainId" [])
    (example_service [] [] "0xabc")
  = (Return Finished, example_service [] [] "0xabc",
     [PostMessage (example_port 1 "https://dapp.example")
        {| response_id := IdNumber 5; result := VError unauthorized |}]).
Proof.
  apply (unauthorized_without_grant example_isTallyConfigPayload
           example_WEBSITE_ORIGIN example_URL_origin example_browser_tabs_get
           example_showExtensionPopup example_routeSafeRPCRequest
           (example_service [] [] "0xabc")
           (example_port 1 "https://dapp.example")
           (example_event 5 "eth_chainId" []) "https://dapp.example").
  - reflexivity.
  - vm_compute; reflexivity.
  - reflexivity.
  - simpl; discriminate.
  - simpl; discriminate.
Defined.

Lemma invalid_claim_referrer_gets_no_reply_witness :
  posted (trace
    (onMessageListener example_isTallyConfigPayload example_WEBSITE_ORIGIN
       example_URL_origin example_browser_tabs_get example_showExtensionPopup
       example_routeSafeRPCRequest
       (example_port 1 "https://dapp.example")
       (example_event 5 "tally_setClaimReferrer" [VStr "0xfriend"])
       (example_service [] [] "0xabc"))) = [].
Proof.
  apply (invalid_claim_referrer_gets_no_reply example_isTallyConfigPayload
           example_WEBSITE_ORIGIN example_URL_origin example_browser_tabs_get
           example_showExtensionPopup example_routeSafeRPCRequest
           (example_service [] [] "0xabc")
           (example_port 1 "https://dapp.example")
           (example_event 5 "tally_setClaimReferrer" [VStr "0xfriend"])
           "https://dapp.example").
  - reflexivity.
  - reflexivity.
  - reflexivity.
  - left. unfold example_URL_origin, example_WEBSITE_ORIGIN. discriminate.
Defined.

Lemma foreign_signer_is_rejected_before_dispatch_witness :
  routeContentScriptRPCRequest example_showExtensionPopup
    example_routeSafeRPCRequest
    (example_grant "https://dapp.example" "0xabc") "personal_sign"
    [VStr "0x68656c6c6f"; VStr "0xdef"]
    (example_service [example_grant "https://dapp.example" "0xabc"] [] "0xabc")
  = (Return (VError userRejectedRequest),
     example_service [example_grant "https://dapp.example" "0xabc"] [] "0xabc",
     [LoggerLog "error processing request" UnauthorizedSigner]).
Proof.
  apply (foreign_signer_is_rejected_before_dispatch
           example_isTallyConfigPayload example_WEBSITE_ORIGIN
           example_URL_origin example_browser_tabs_get
           example_showExtensionPopup example_routeSafeRPCRequest
           (example_service [example_grant "https://dapp.example" "0xabc"] []
              "0xabc")
           (example_grant "https://dapp.example" "0xabc") "personal_sign"
           [VStr "0x68656c6c6f"; VStr "0xdef"] "0xdef").
  - simpl. tauto.
  - reflexivity.
  - reflexivity.
Defined.

Lemma routing_failures_become_user_rejections_witness :
  ∃ v,
    completion
      (routeContentScriptRPCRequest example_showExtensionPopup
         example_routeSafeRPCRequest
         (example_grant "https://dapp.example" "0xabc") "eth_sendTransaction"
         [VObj [("from", VStr "0xABC"); ("to", VStr "0xdef")]]
         (example_service [] [] "0xabc")) = Return v
    ∧ v = VError userRejectedRequest.
Proof.
  destruct (routing_failures_become_user_rejections
              example_isTallyConfigPayload example_WEBSITE_ORIGIN
              example_URL_origin example_browser_tabs_get
              example_showExtensionPopup
              example_routeSafeRPCRequest (example_service [] [] "0xabc")
              (example_grant "https://dapp.example" "0xabc")
              "eth_sendTransaction"
              [VObj [("from", VStr "0xABC"); ("to", VStr "0xdef")]])
    as (v & Hreturned & _ & Hraised & _).
  exists v. split; [exact Hreturned |].
  apply (Hraised (Raised (VStr "internal provider failure"))).
  - reflexivity.
  - simpl. intros [H | [H | []]]; discriminate.
Defined.

Lemma consent_callbacks_are_guarded_witness :
  db (final (grantPermission
               (example_decision "https://dapp.example" "0xabc" allow)
               (example_service [] [] "0xabc")))
  = <[("https://dapp.example", "0xabc")
      := example_decision "https://dapp.example" "0xabc" allow]> ∅.
Proof.
  apply (consent_callbacks_are_guarded example_URL_origin
           (example_service [] [] "0xabc")
           (example_decision "https://dapp.example" "0xabc" allow)).
  split; [reflexivity | simpl; discriminate].
Defined.

Lemma grants_are_per_account_witness :
  checkPermission "https://dapp.example" None
    (final (grantPermission
              (example_decision "https://dapp.example" "0xabc" allow)
              (example_service [] [] "0xdef")))
  = (Return None,
     final (grantPermission
              (example_decision "https://dapp.example" "0xabc" allow)
              (example_service [] [] "0xdef")),
     []).
Proof.
  apply (grants_are_per_account example_isTallyConfigPayload
           example_WEBSITE_ORIGIN example_URL_origin example_browser_tabs_get
           example_showExtensionPopup example_routeSafeRPCRequest
           (example_service [] [] "0xdef")
           (example_decision "https://dapp.example" "0xabc" allow)
           (example_port 1 "https://dapp.example")
           (example_event 5 "eth_accounts" [])
           "https://dapp.example").
  - reflexivity.
  - simpl; discriminate.
  - simpl; discriminate.
  - vm_compute; reflexivity.
  - reflexivity.
  - reflexivity.
  - reflexivity.
  - simpl; discriminate.
Defined.

Lemma one_pending_continuation_per_origin_witness :
  trace
    (grantPermission
       (example_decision "https://dapp.example" "0xabc" allow)
       (final
          (onMessageListener example_isTallyConfigPayload
             example_WEBSITE_ORIGIN example_URL_origin
             example_browser_tabs_get example_showExtensionPopup
             example_routeSafeRPCRequest
             (example_port 2 "https://dapp.example")
             (example_event 6 "eth_requestAccounts" [])
             (final
                (onMessageListener example_isTallyConfigPayload
                   example_WEBSITE_ORIGIN example_URL_origin
                   example_browser_tabs_get example_showExtensionPopup
                   example_routeSafeRPCRequest
                   (example_port 1 "https://dapp.example")
                   (example_event 5 "eth_requestAccounts" [])
                   (example_service [] [] "0xabc"))))))
  = [Resolve 1%nat
       (ResolvedByGrant
          (example_decision "https://dapp.example" "0xabc" allow))].
Proof.
  assert (sender_url (example_port 1 "https://dapp.example")
          = Some "https://dapp.example") as Hurl1 by reflexivity.
  assert (sender_url (example_port 2 "https://dapp.example")
          = Some "https://dapp.example") as Hurl2 by reflexivity.
  assert (db (example_service [] [] "0xabc")
            !! (example_URL_origin "https://dapp.example",
                selectedAccount (example_service [] [] "0xabc")) = None)
    as Hnone by (vm_compute; reflexivity).
  destruct (one_pending_continuation_per_origin example_isTallyConfigPayload
              example_WEBSITE_ORIGIN example_URL_origin
              example_browser_tabs_get example_showExtensionPopup
              example_routeSafeRPCRequest
              (example_service [] [] "0xabc")
              (example_port 1 "https://dapp.example")
              (example_port 2 "https://dapp.example")
              (example_event 5 "eth_requestAccounts" [])
              (example_event 6 "eth_requestAccounts" [])
              "https://dapp.example" "https://dapp.example"
              {| window_id := Some 7 |}
              Hurl1 Hurl2 eq_refl Hnone eq_refl eq_refl eq_refl eq_refl
              eq_refl)
    as (_ & _ & _ & _ & _ & Hdecisions).
  destruct (Hdecisions
              (example_decision "https://dapp.example" "0xabc" allow)
              eq_refl) as (Hgranted & _).
  apply Hgranted. split; [reflexivity | simpl; discriminate].
Defined.

(** C9 as stated fails: the wallet-config query is a request, it is
    answered, and its reply carries the fixed id ["tallyHo"] instead of the
    request's id. *)
Lemma config_reply_carries_the_sentinel_id :
  let port := example_port 1 "https://dapp.example" in
  let event := example_event 5 "tally_getConfig" [] in
  ∃ response,
    posted (trace
      (onMessageListener example_isTallyConfigPayload example_WEBSITE_ORIGIN
         example_URL_origin example_browser_tabs_get
         example_showExtensionPopup example_routeSafeRPCRequest
         port event (example_service [] [port] "0xabc")))
    = [(port, response)]
    ∧ response_id response = tallyHo
    ∧ response_id response ≠ request_id event.
Proof.
  eexists. split; [reflexivity |]. split; [reflexivity |].
  simpl. discriminate.
Qed.

Lemma replies_echo_the_id_except_config_witness :
  onMessageListener example_isTallyConfigPayload example_WEBSITE_ORIGIN
    example_URL_origin example_browser_tabs_get example_showExtensionPopup
    example_routeSafeRPCRequest
    (example_port 1 "https://dapp.example")
    (example_event 5 "tally_getConfig" [])
    (example_service [] [] "0xabc")
  = (Return Finished, example_service [] [] "0xabc",
     [PostMessage (example_port 1 "https://dapp.example")
        {| response_id := tallyHo;
           result := VObj [("method", VStr "tally_getConfig");
                           ("defaultWallet", VBool true)] |}]).
Proof.
  pose proof (replies_echo_the_id_except_config example_isTallyConfigPayload
                example_WEBSITE_ORIGIN example_URL_origin
                example_browser_tabs_get example_showExtensionPopup
                example_routeSafeRPCRequest
                (example_service [] [] "0xabc")
                (example_port 1 "https://dapp.example")
                (example_event 5 "tally_getConfig" []))
    as (_ & Hconfig & _).
  apply (Hconfig eq_refl "https://dapp.example" eq_refl).
Defined.

(** C2 at [eth_sign]: the router hands [params[1]] to the check for
    [eth_sign] as it does for [personal_sign], but [eth_sign] carries the
    account first and the message second.  A call for an account other
    than the granted one, whose message is the granted address, passes the
    check: the popup is opened, the call is dispatched to the internal
    provider and the provider's result is posted to the page. *)
Theorem eth_sign_for_a_foreign_account_is_dispatched :
  let grant := example_grant "https://dapp.example" "0xabc" in
  let port := example_port 1 "https://dapp.example" in
  let params := [VStr "0xdef"; VStr "0xabc"] in
  let st := example_service [grant] [port] "0xabc" in
  let routed :=
    routeContentScriptRPCRequest example_showExtensionPopup
      example_signing_provider grant "eth_sign" params st in
  sameEVMAddress "0xdef" (accountAddress grant) = false
  ∧ routed
    = (Return (VStr "0xsignature"), st,
       [ShowExtensionPopup personalSignData;
        RouteSafeRPCRequest "eth_sign" params;
        WindowsRemove 7])
  ∧ dispatched (trace routed) = [("eth_sign", params)]
  ∧ onMessageListener example_isTallyConfigPayload example_WEBSITE_ORIGIN
      example_URL_origin example_browser_tabs_get example_showExtensionPopup
      example_signing_provider port (example_event 5 "eth_sign" params) st
    = (Return Finished, st,
       [ShowExtensionPopup personalSignData;
        RouteSafeRPCRequest "eth_sign" params;
        WindowsRemove 7;
        PostMessage port {| response_id := IdNumber 5;
                            result := VStr "0xsignature" |}]).
Proof.
  vm_compute. repeat split.
Qed.

(** C3 at a revocation: two origins hold a grant for the selected account
    and each has an open port; revoking the first one's grant deletes it
    and broadcasts.  The revoked origin's port receives the empty address
    list; the port of the origin that is still granted receives the list
    holding [undefined], not the account it is granted, because the
    broadcast is started without an address. *)
Theorem revocation_broadcast_sends_undefined_to_granted_origin :
  let revoked := example_port 1 "https://a.example" in
  let granted := example_port 2 "https://b.example" in
  let st :=
    example_service
      [example_grant "https://a.example" "0xabc";
       example_grant "https://b.example" "0xabc"]
      [revoked; granted] "0xabc" in
  let r :=
    denyOrRevokePermission example_URL_origin
      (example_decision "https://a.example" "0xabc" deny) st in
  db (final r) !! ("https://a.example", "0xabc") = None
  ∧ db (final r) !! ("https://b.example", "0xabc")
    = Some (example_grant "https://b.example" "0xabc")
  ∧ trace r
    = [PostMessage revoked
         {| response_id := tallyHo;
            result := VObj [("method", VStr "tally_accountChanged");
                            ("address", VArr [])] |};
       PostMessage granted
         {| response_id := tallyHo;
            result := VObj [("method", VStr "tally_accountChanged");
                            ("address", VArr [VUndefined])] |}].
Proof.
  vm_compute. repeat split.
Qed.

(** ** The further properties at concrete inputs *)

Lemma popup_is_closed_on_both_paths_witness :
  routeContentScriptRPCRequest example_showExtensionPopup
    example_routeSafeRPCRequest
    (example_grant "https://dapp.example" "0xabc") "personal_sign"
    [VStr "0x68656c6c6f"; VStr "0xABC"] (example_service [] [] "0xabc")
  = (Return (VError userRejectedRequest), example_service [] [] "0xabc",
     [ShowExtensionPopup personalSignData;
      RouteSafeRPCRequest "personal_sign" [VStr "0x68656c6c6f"; VStr "0xABC"];
      WindowsRemove 7;
      LoggerLog "error processing request"
        (Raised (VStr "internal provider failure"))]).
Proof.
  apply (popup_is_closed_on_both_paths example_showExtensionPopup
           example_routeSafeRPCRequest (example_service [] [] "0xabc")
           (example_grant "https://dapp.example" "0xabc") "personal_sign"
           [VStr "0x68656c6c6f"; VStr "0xABC"] "0xABC"
           {| window_id := Some 7 |}).
  - simpl. tauto.
  - reflexivity.
  - reflexivity.
  - reflexivity.
Defined.

Lemma failed_popup_overrides_the_dispatch_witness :
  routeContentScriptRPCRequest example_failing_popup
    (fun _ _ => Return (VStr "0xsignature"))
    (example_grant "https://dapp.example" "0xabc") "eth_sendTransaction"
    [VObj [("from", VStr "0xabc"); ("to", VStr "0xdef")]]
    (example_service [] [] "0xabc")
  = (Return (VError userRejectedRequest), example_service [] [] "0xabc",
     [ShowExtensionPopup signTransaction;
      RouteSafeRPCRequest "eth_sendTransaction"
        [VObj [("from", VStr "0xabc"); ("to", VStr "0xdef")]];
      LoggerLog "error processing request" (Raised (VStr "no window"))]).
Proof.
  apply (failed_popup_overrides_the_dispatch example_failing_popup
           (fun _ _ => Return (VStr "0xsignature"))
           (example_service [] [] "0xabc")
           (example_grant "https://dapp.example" "0xabc")
           "eth_sendTransaction"
           [VObj [("from", VStr "0xabc"); ("to", VStr "0xdef")]] "0xabc"
           (Raised (VStr "no window"))).
  - simpl. tauto.
  - reflexivity.
  - reflexivity.
  - reflexivity.
Defined.

Lemma other_methods_are_forwarded_without_popup_witness :
  routeContentScriptRPCRequest example_showExtensionPopup
    (fun _ _ => Return (VStr "0x1"))
    (example_grant "https://dapp.example" "0xabc") "eth_chainId" []
    (example_service [] [] "0xabc")
  = (Return (VStr "0x1"), example_service [] [] "0xabc",
     [RouteSafeRPCRequest "eth_chainId" []]).
Proof.
  apply (other_methods_are_forwarded_without_popup example_showExtensionPopup
           (fun _ _ => Return (VStr "0x1")) (example_service [] [] "0xabc")
           (example_grant "https://dapp.example" "0xabc") "eth_chainId" []).
  - simpl. intros [H | [H | []]]; discriminate.
  - simpl. intros H.
    repeat (destruct H as [H | H]; [discriminate |]). exact H.
Defined.

Lemma claim_referrer_is_accepted_from_the_website_witness :
  onMessageListener example_isTallyConfigPayload example_WEBSITE_ORIGIN
    example_URL_origin example_browser_tabs_get example_showExtensionPopup
    example_routeSafeRPCRequest
    (example_port 1 "https://tally.cash")
    (example_event 5 "tally_setClaimReferrer" [VStr "0xfriend"])
    (example_service [] [] "0xabc")
  = (Return Finished, example_service [] [] "0xabc",
     [EmitSetClaimReferrer "0xfriend";
      PostMessage (example_port 1 "https://tally.cash")
        {| response_id := IdNumber 5; result := VNull |}]).
Proof.
  apply (claim_referrer_is_accepted_from_the_website
           example_isTallyConfigPayload example_WEBSITE_ORIGIN
           example_URL_origin example_browser_tabs_get
           example_showExtensionPopup example_routeSafeRPCRequest
           (example_service [] [] "0xabc")
           (example_port 1 "https://tally.cash")
           (example_event 5 "tally_setClaimReferrer" [VStr "0xfriend"])
           "https://tally.cash" "0xfriend").
  - reflexivity.
  - reflexivity.
  - reflexivity.
  - reflexivity.
  - reflexivity.
Defined.

Lemma consent_flow_granted_witness :
  trace
    (onMessageListener_resumed example_URL_origin example_showExtensionPopup
       example_routeSafeRPCRequest
       (example_port 1 "https://dapp.example")
       (example_event 5 "eth_requestAccounts" [])
       (final
          (grantPermission
             (example_decision "https://dapp.example" "0xabc" allow)
             (final
                (onMessageListener example_isTallyConfigPayload
                   example_WEBSITE_ORIGIN example_URL_origin
                   example_browser_tabs_get example_showExtensionPopup
                   example_routeSafeRPCRequest
                   (example_port 1 "https://dapp.example")
                   (example_event 5 "eth_requestAccounts" [])
                   (example_service [] [] "0xabc"))))))
  = [PostMessage (example_port 1 "https://dapp.example")
       {| response_id := IdNumber 5; result := VArr [VStr "0xabc"] |}].
Proof.
  apply (consent_flow_granted example_isTallyConfigPayload
           example_WEBSITE_ORIGIN example_URL_origin example_browser_tabs_get
           example_showExtensionPopup example_routeSafeRPCRequest
           (example_service [] [] "0xabc")
           (example_port 1 "https://dapp.example")
           (example_event 5 "eth_requestAccounts" [])
           "https://dapp.example" {| window_id := Some 7 |}
           (example_decision "https://dapp.example" "0xabc" allow)).
  - reflexivity.
  - vm_compute; reflexivity.
  - reflexivity.
  - reflexivity.
  - reflexivity.
  - reflexivity.
  - reflexivity.
  - reflexivity.
  - simpl; discriminate.
Defined.

Lemma consent_flow_denied_witness :
  trace
    (onMessageListener_resumed example_URL_origin example_showExtensionPopup
       example_routeSafeRPCRequest
       (example_port 1 "https://dapp.example")
       (example_event 5 "eth_requestAccounts" [])
       (final
          (denyOrRevokePermission example_URL_origin
             (example_decision "https://dapp.example" "0xabc" deny)
             (final
                (onMessageListener example_isTallyConfigPayload
                   example_WEBSITE_ORIGIN example_URL_origin
                   example_browser_tabs_get example_showExtensionPopup
                   example_routeSafeRPCRequest
                   (example_port 1 "https://dapp.example")
                   (example_event 5 "eth_requestAccounts" [])
                   (example_service [] [] "0xabc"))))))
  = [PostMessage (example_port 1 "https://dapp.example")
       {| response_id := IdNumber 5;
          result := VError userRejectedRequest |}].
Proof.
  apply (consent_flow_denied example_isTallyConfigPayload
           example_WEBSITE_ORIGIN example_URL_origin example_browser_tabs_get
           example_showExtensionPopup example_routeSafeRPCRequest
           (example_service [] [] "0xabc")
           (example_port 1 "https://dapp.example")
           (example_event 5 "eth_requestAccounts" [])
           "https://dapp.example" {| window_id := Some 7 |}
           (example_decision "https://dapp.example" "0xabc" deny)).
  - reflexivity.
  - vm_compute; reflexivity.
  - reflexivity.
  - reflexivity.
  - reflexivity.
  - reflexivity.
  - reflexivity.
  - simpl; discriminate.
Defined.

Lemma consent_request_fails_with_its_popup_witness :
  onMessageListener example_isTallyConfigPayload example_WEBSITE_ORIGIN
    example_URL_origin example_browser_tabs_get example_failing_popup
    example_routeSafeRPCRequest
    (example_port 1 "https://dapp.example")
    (example_event 5 "eth_requestAccounts" [])
    (example_service [] [] "0xabc")
  = (Throw (Raised (VStr "no window")), example_service [] [] "0xabc",
     [EmitRequestPermission
        (permission_request_of example_URL_origin example_browser_tabs_get
           (example_service [] [] "0xabc")
           (example_port 1 "https://dapp.example") "https://dapp.example");
      ShowExtensionPopup dappPermission]).
Proof.
  apply (consent_request_fails_with_its_popup example_isTallyConfigPayload
           example_WEBSITE_ORIGIN example_URL_origin example_browser_tabs_get
           example_failing_popup example_routeSafeRPCRequest
           (example_service [] [] "0xabc")
           (example_port 1 "https://dapp.example")
           (example_event 5 "eth_requestAccounts" [])
           "https://dapp.example" (Raised (VStr "no window"))).
  - reflexivity.
  - vm_compute; reflexivity.
  - reflexivity.
  - reflexivity.
  - reflexivity.
Defined.

Lemma at_most_one_reply_witness :
  List.length
    (posted (trace
       (onMessageListener_resumed example_URL_origin
          example_showExtensionPopup example_routeSafeRPCRequest
          (example_port 1 "https://dapp.example")
          (example_event 5 "eth_requestAccounts" [])
          (example_service [] [] "0xabc")))) = 1%nat.
Proof.
  apply (at_most_one_reply example_isTallyConfigPayload
           example_WEBSITE_ORIGIN example_URL_origin example_browser_tabs_get
           example_showExtensionPopup example_routeSafeRPCRequest
           (example_service [] [] "0xabc")
           (example_port 1 "https://dapp.example")
           (example_event 5 "eth_requestAccounts" [])) with
    (url := "https://dapp.example").
  reflexivity.
Defined.

Lemma granted_origin_reads_its_account_witness :
  onMessageListener example_isTallyConfigPayload example_WEBSITE_ORIGIN
    example_URL_origin example_browser_tabs_get example_showExtensionPopup
    example_routeSafeRPCRequest
    (example_port 1 "https://dapp.example")
    (example_event 5 "eth_accounts" [])
    (final (grantPermission
              (example_decision "https://dapp.example" "0xabc" allow)
              (example_service [] [] "0xabc")))
  = (Return Finished,
     final (grantPermission
              (example_decision "https://dapp.example" "0xabc" allow)
              (example_service [] [] "0xabc")),
     [PostMessage (example_port 1 "https://dapp.example")
        {| response_id := IdNumber 5; result := VArr [VStr "0xabc"] |}]).
Proof.
  apply (granted_origin_reads_its_account example_isTallyConfigPayload
           example_WEBSITE_ORIGIN example_URL_origin example_browser_tabs_get
           example_showExtensionPopup example_routeSafeRPCRequest
           (example_service [] [] "0xabc")
           (example_decision "https://dapp.example" "0xabc" allow)
           (example_port 1 "https://dapp.example")
           (example_event 5 "eth_accounts" [])
           "https://dapp.example").
  - reflexivity.
  - simpl; discriminate.
  - reflexivity.
  - reflexivity.
  - reflexivity.
  - reflexivity.
  - left; reflexivity.
Defined.

Lemma revocation_undoes_the_grant_witness :
  db (final
        (denyOrRevokePermission example_URL_origin
           (example_decision "https://dapp.example" "0xabc" deny)
           (final (grantPermission
                     (example_decision "https://dapp.example" "0xabc" allow)
                     (example_service [] [] "0xabc")))))
  = db (example_service [] [] "0xabc").
Proof.
  apply (revocation_undoes_the_grant example_isTallyConfigPayload
           example_WEBSITE_ORIGIN example_URL_origin example_browser_tabs_get
           example_showExtensionPopup example_routeSafeRPCRequest
           (example_service [] [] "0xabc")
           (example_decision "https://dapp.example" "0xabc" allow)
           (example_decision "https://dapp.example" "0xabc" deny)
           (example_port 1 "https://dapp.example")
           (example_event 5 "eth_accounts" [])
           "https://dapp.example").
  - vm_compute; reflexivity.
  - reflexivity.
  - reflexivity.
  - simpl; discriminate.
  - reflexivity.
  - simpl; discriminate.
  - reflexivity.
  - reflexivity.
  - reflexivity.
  - reflexivity.
  - reflexivity.
Defined.

Lemma revocation_targets_the_selected_account_witness :
  db (final
        (denyOrRevokePermission example_URL_origin
           (example_decision "https://dapp.example" "0xabc" deny)
           (example_service
              [example_grant "https://dapp.example" "0xabc";
               example_grant "https://dapp.example" "0xdef"] [] "0xdef")))
    !! ("https://dapp.example", "0xabc")
  = db (example_service
          [example_grant "https://dapp.example" "0xabc";
           example_grant "https://dapp.example" "0xdef"] [] "0xdef")
      !! ("https://dapp.example", "0xabc").
Proof.
  apply (revocation_targets_the_selected_account example_URL_origin
           (example_service
              [example_grant "https://dapp.example" "0xabc";
               example_grant "https://dapp.example" "0xdef"] [] "0xdef")
           (example_decision "https://dapp.example" "0xabc" deny)).
  - reflexivity.
  - simpl; discriminate.
  - simpl; discriminate.
Defined.

Lemma decisions_touch_one_origin_witness :
  pendingPermissionsRequests
    (final (grantPermission
              (example_decision "https://dapp.example" "0xabc" allow)
              (example_service [] [] "0xabc"))) !! "https://other.example"
  = pendingPermissionsRequests (example_service [] [] "0xabc")
      !! "https://other.example".
Proof.
  apply (decisions_touch_one_origin example_URL_origin
           (example_service [] [] "0xabc")
           (example_decision "https://dapp.example" "0xabc" allow)
           grantPermission).
  - left; reflexivity.
  - simpl; discriminate.
Defined.

Lemma connect_then_disconnect_restores_witness :
  final (onDisconnect (example_port 2 "https://b.example")
           (final (onConnect "tally-external"
                     (example_port 2 "https://b.example")
                     (example_service [] [example_port 1 "https://a.example"]
                        "0xabc"))))
  = example_service [] [example_port 1 "https://a.example"] "0xabc".
Proof.
  apply (connect_then_disconnect_restores "tally-external"
           (example_service [] [example_port 1 "https://a.example"] "0xabc")
           (example_port 2 "https://b.example")).
  repeat constructor. simpl. discriminate.
Defined.

Lemma address_change_reaches_every_port_witness :
  posted (trace
    (notifyContentScriptsAboutAddressChange example_URL_origin (Some "0xabc")
       (example_service [example_grant "https://a.example" "0xabc"]
          [example_port 1 "https://a.example";
           example_port 2 "https://b.example"] "0xabc")))
  = [(example_port 1 "https://a.example",
      {| response_id := tallyHo;
         result := VObj [("method", VStr "tally_accountChanged");
                         ("address", VArr [VStr "0xabc"])] |});
     (example_port 2 "https://b.example",
      {| response_id := tallyHo;
         result := VObj [("method", VStr "tally_accountChanged");
                         ("address", VArr [])] |})].
Proof.
  etrans.
  - apply (address_change_reaches_every_port example_URL_origin
             (example_service [example_grant "https://a.example" "0xabc"]
                [example_port 1 "https://a.example";
                 example_port 2 "https://b.example"] "0xabc")
             (Some "0xabc")).
    repeat constructor; by eexists.
  - vm_compute. reflexivity.
Defined.
